(** * ots: the command line of the Odoo time sheet recorder

    A shallow embedding of [src/ots/cli.py].  The commands of the click
    application become functions in a small monad that threads the state of
    the machine (configuration directory, ZODB file stores, terminal input),
    raises Python exceptions and records what the command did as a trace of
    events.  The time sheet store class and the migration function are not
    part of [cli.py]: the commands reach them through the [Backend]
    interface, and a later part of the file gives one implementation that
    follows the design document. *)

From Stdlib Require Import ZArith Lia Ascii String.
From stdpp Require Import base option list strings gmap pretty.

Local Open Scope Z_scope.

(** ** Python values *)

(** [datetime.date] as its proleptic Gregorian ordinal ([date.toordinal()],
    day 1 is 0001-01-01). *)
Definition date : Type := Z.

(** The values that travel between click, the configuration file and the
    store methods.  A [datetime.datetime] produced by click's [DateTime]
    option type with format [%Y-%m-%d] is midnight of its day. *)
Inductive pyval : Type :=
| VNone
| VBool (b : bool)
| VInt (n : Z)
| VStr (s : string)
| VDate (d : date)
| VDateTime (d : date).

Global Instance pyval_eq_dec : EqDecision pyval.
Proof. solve_decision. Defined.

(** Python truth value, as tested by [if x:], [not x], [and], [or]. *)
Definition truthy (v : pyval) : bool :=
  match v with
  | VNone => false
  | VBool b => b
  | VInt n => negb (n =? 0)
  | VStr s => negb (String.eqb s "")
  | VDate _ | VDateTime _ => true
  end.

Definition of_str (o : option string) : pyval := from_option VStr VNone o.
Definition of_int (o : option Z) : pyval := from_option VInt VNone o.

(** Keyword arguments of a call, in the order they are written. *)
Definition kwargs : Type := list (string * pyval).

(** A dict with string keys, as [json.load] returns it for the
    configuration file. *)
Abbreviation config := (gmap string pyval).

(** [d.get(key)] and [d.get(key, default)]. *)
Definition dict_get (d : config) (key : string) (dflt : pyval) : pyval :=
  default dflt (d !! key).

(** [d.update({k1: v1, ...})]: the items are set one after the other. *)
Definition dict_update (d : config) (items : kwargs) : config :=
  foldl (λ acc kv, <[kv.1 := kv.2]> acc) d items.

(** ** Calendar arithmetic for [date.isoformat()] *)

(** Year, month and day of an ordinal (the civil-from-days computation on
    400-year eras, shifted so that a year starts in March). *)
Definition ymd_of_ordinal (n : date) : Z * Z * Z :=
  let z := n + 305 in
  let era := z / 146097 in
  let doe := z - era * 146097 in
  let yoe := (doe - doe / 1460 + doe / 36524 - doe / 146096) / 365 in
  let doy := doe - (365 * yoe + yoe / 4 - yoe / 100) in
  let mp := (5 * doy + 2) / 153 in
  let d := doy - (153 * mp + 2) / 5 + 1 in
  let m := if mp <? 10 then mp + 3 else mp - 9 in
  let y := yoe + era * 400 + (if m <=? 2 then 1 else 0) in
  (y, m, d).

(** [date(y, m, d).toordinal()]. *)
Definition ordinal_of_ymd (y m d : Z) : date :=
  let y' := if m <=? 2 then y - 1 else y in
  let era := y' / 400 in
  let yoe := y' - era * 400 in
  let mp := if m <=? 2 then m + 9 else m - 3 in
  let doy := (153 * mp + 2) / 5 + d - 1 in
  let doe := yoe * 365 + yoe / 4 - yoe / 100 + doy in
  era * 146097 + doe - 305.

(** Decimal digits of [n], zero padded on the left to [width]. *)
Definition zero_pad (width : nat) (n : Z) : string :=
  let s := pretty (Z.to_N n) in
  String.concat "" (replicate (width - String.length s)%nat "0") +:+ s.

Definition isoformat (d : date) : string :=
  let '(y, m, dd) := ymd_of_ordinal d in
  zero_pad 4 y +:+ "-" +:+ zero_pad 2 m +:+ "-" +:+ zero_pad 2 dd.

(** ** Exceptions and events *)

Inductive exn : Type :=
| ClickException (msg : string)
| UsageError (msg : string)
| Abort
| AttributeError (msg : string)
| KeyError (key : string)
| TypeError (msg : string)
| Error (cls msg : string).

Inductive result (A : Type) : Type :=
| Ok (a : A)
| Raise (e : exn).
Arguments Ok {A} a.
Arguments Raise {A} e.

(** What a command does that can be seen from outside, in order. *)
Inductive event : Type :=
| Echo (text : string)
| EchoHelp
| AskConfirm (text : string) (dflt : pyval)
| AskPrompt (text : string) (dflt : pyval) (hidden : bool)
| Begin (db : string)
| Commit (db : string)
| Rollback (db : string)
| Migrate (auto_migrate : pyval)
| Call (meth : string) (args : list pyval) (kw : kwargs).

Global Instance exn_eq_dec : EqDecision exn.
Proof. solve_decision. Defined.

Global Instance event_eq_dec : EqDecision event.
Proof. solve_decision. Defined.

Definition trace : Type := list event.

(** ** The monad of commands *)

(** A computation over a state [St]: a result or an exception, the state
    reached (also when an exception is raised: what was written stays
    written) and the events, oldest first. *)
Definition M (St A : Type) : Type := St → result A * St * trace.

Global Instance M_ret {St} : MRet (M St) := λ A a st, (Ok a, st, []).

Global Instance M_bind {St} : MBind (M St) := λ A B k m st,
  match m st with
  | (Ok a, st1, tr1) =>
      match k a st1 with
      | (r, st2, tr2) => (r, st2, tr1 ++ tr2)
      end
  | (Raise e, st1, tr1) => (Raise e, st1, tr1)
  end.

Definition raise {St A} (e : exn) : M St A := λ st, (Raise e, st, []).
Definition emit {St} (ev : event) : M St unit := λ st, (Ok tt, st, [ev]).
Definition gets {St A} (f : St → A) : M St A := λ st, (Ok (f st), st, []).
Definition modify {St} (f : St → St) : M St unit := λ st, (Ok tt, f st, []).

(** Run a computation on the second component of a pair of states. *)
Definition lift_snd {St1 St2 A} (m : M St2 A) : M (St1 * St2) A := λ st,
  match m st.2 with
  | (r, st2, tr) => (r, (st.1, st2), tr)
  end.

(** [for x in xs: body(x)]. *)
Fixpoint for_each {St A} (xs : list A) (body : A → M St unit) : M St unit :=
  match xs with
  | [] => mret tt
  | x :: rest => body x;; for_each rest body
  end.

(** ** The machine a command runs on *)

(** What the user does at a [click.prompt] or [click.confirm]: press return
    (take the default), or give an answer, which click converts to the value
    the call returns. *)
Inductive reply : Type :=
| Enter
| Answer (v : pyval).

(** The state outside the process.  [S] is the type of the time sheet store
    object, [X] whatever else its methods see and change (the clock, the
    Odoo server).  A ZODB file storage is known by the path of its file, and
    holds the [timesheet_storage] attribute of its root object, if set. *)
Record world (S X : Type) : Type := World {
  w_dirs : gset string;
  w_configs : gmap string config;
  w_dbs : gmap string S;
  w_stdin : list reply;
  w_ext : X;
}.
Arguments World {S X}.
Arguments w_dirs {S X}.
Arguments w_configs {S X}.
Arguments w_dbs {S X}.
Arguments w_stdin {S X}.
Arguments w_ext {S X}.

Definition set_dirs {S X} (f : gset string → gset string) (w : world S X) :=
  World (f (w_dirs w)) (w_configs w) (w_dbs w) (w_stdin w) (w_ext w).
Definition set_configs {S X} (f : gmap string config → gmap string config)
    (w : world S X) :=
  World (w_dirs w) (f (w_configs w)) (w_dbs w) (w_stdin w) (w_ext w).
Definition set_dbs {S X} (f : gmap string S → gmap string S) (w : world S X) :=
  World (w_dirs w) (w_configs w) (f (w_dbs w)) (w_stdin w) (w_ext w).
Definition set_stdin {S X} (input : list reply) (w : world S X) :=
  World (w_dirs w) (w_configs w) (w_dbs w) input (w_ext w).
Definition set_ext {S X} (x : X) (w : world S X) :=
  World (w_dirs w) (w_configs w) (w_dbs w) (w_stdin w) x.

(** The code [cli.py] imports: the store class [TimesheetFileStore] with its
    methods (called by name, with positional and keyword arguments, on the
    store object; a method returns a value and the changed store, or
    raises), [check_and_migrate] of the migration package, and the library
    functions [datetime.date.today] and [dateutil.parser.parse]. *)
Class Backend (S X : Type) : Type := {
  TimesheetFileStore : S;
  ts_method : string → list pyval → kwargs → S → X → result (pyval * S) * X;
  check_and_migrate : S → pyval → result S;
  date_today : X → date;
  parser_parse : string → result date;
}.

(** The click context object [ctx.obj], a dict with the keys ['config_dir'],
    ['db'] and ['config'].  The database handle is the path of its file. *)
Record ctx_obj : Type := Obj {
  obj_config_dir : option string;
  obj_db : option string;
  obj_config : option config;
}.

(** The commands, with the arguments click has parsed for them. *)
Inductive command : Type :=
| CmdAdd (task_code : string) (duration description : option string)
    (task_id project_id : option Z) (date : option date)
| CmdStart (task_code description : option string) (task_id project_id : option Z)
| CmdStop
| CmdEdit (index : string) (description duration code : option string)
    (task_id project_id : option Z)
| CmdTransfer (duration index_from index_to : string)
| CmdDrop (index : string) (force : bool)
| CmdLunch
| CmdResume (index : option string)
| CmdAlias
| CmdAliasList (details : bool)
| CmdAliasAdd (name : string) (task_code description : option string)
    (project_id task_id : option Z)
| CmdAliasDelete (name : string)
| CmdAliasUpdate (name : option string) (update_all : bool)
| CmdPush (index : option string) (dt : option date) (force : bool)
| CmdSearch (search_term : string)
| CmdList (days : Z) (date : option string)
| CmdPlanning
| CmdLogin (database : option string)
| CmdLogout
| CmdSetup (advanced : bool)
| CmdUpdate (index : string).

(** [str(v)], as an f-string formats a value. *)
Definition py_str (v : pyval) : string :=
  match v with
  | VNone => "None"
  | VBool true => "True"
  | VBool false => "False"
  | VInt n => pretty n
  | VStr s => s
  | VDate d => isoformat d
  | VDateTime d => isoformat d +:+ " 00:00:00"
  end.

(** [s.endswith(suffix)]. *)
Definition endswith (s suffix : string) : bool :=
  String.prefix (String.rev suffix) (String.rev s).

(** [range(a, b)] for integers. *)
Definition range (a b : Z) : list Z := seqZ a (b - a).

(** ** click *)

Section Click.
Context {S X : Type}.

(** [click.echo(text)]. *)
Definition echo (text : string) : M (world S X) unit := emit (Echo text).

(** The value a prompt returns on the input that is left: return on an
    empty line takes the default when there is one and asks again
    otherwise; at the end of the input click raises [Abort]. *)
Fixpoint read_reply (dflt : pyval) (input : list reply)
    : option (pyval * list reply) :=
  match input with
  | [] => None
  | Enter :: rest =>
      match dflt with
      | VNone => read_reply dflt rest
      | _ => Some (dflt, rest)
      end
  | Answer v :: rest => Some (v, rest)
  end.

Definition ask (ev : event) (dflt : pyval) : M (world S X) pyval := λ w,
  match read_reply dflt (w_stdin w) with
  | Some (v, rest) => (Ok v, set_stdin rest w, [ev])
  | None => (Raise Abort, set_stdin [] w, [ev])
  end.

(** [click.confirm(text, default=dflt)]. *)
Definition click_confirm (text : string) (dflt : pyval) : M (world S X) pyval :=
  ask (AskConfirm text dflt) dflt.

(** [click.prompt(text, default=dflt, hide_input=hidden)]. *)
Definition click_prompt (text : string) (dflt : pyval) (hidden : bool)
    : M (world S X) pyval :=
  ask (AskPrompt text dflt hidden) dflt.
End Click.

(** ** cli.py *)

Module Cli.
Section Commands.
Context {S X : Type} {backend : Backend S X}.

Definition DEFAULT_FILESTORE_FILE_NAME : string := "filestore.fs".

(** [Path(dir) / name]: an absolute [name] replaces [dir]. *)
Definition path_join (dir name : string) : string :=
  if String.prefix "/" name then name else dir +:+ "/" +:+ name.

Definition ensure_path (path : string) : M (world S X) unit :=
  modify (set_dirs (λ dirs, if decide (path ∈ dirs) then dirs else {[path]} ∪ dirs)).

Definition _load_config (path : string) : M (world S X) config :=
  gets (λ w, default ∅ (w_configs w !! path)).

Definition _save_config (cfg : config) (path : string) : M (world S X) unit :=
  ensure_path path;;
  modify (set_configs <[path := cfg]>);;
  echo "Configuration saved".

Definition _get_database (obj : ctx_obj) : M (world S X) string :=
  match obj_db obj with
  | None => raise (ClickException "Something went wrong, unable to find database.")
  | Some db => mret db
  end.

(** [with db.transaction() as connection: body]: the body works on the
    root object of a connection; ZODB commits what it did when it ends
    normally and aborts the transaction when it raises. *)
Definition db_transaction {A} (db : string) (body : M (option S * world S X) A)
    : M (world S X) A := λ w,
  match body (w_dbs w !! db, w) with
  | (Ok a, (Some s, w'), tr) =>
      (Ok a, set_dbs <[db := s]> w', Begin db :: tr ++ [Commit db])
  | (Ok a, (None, w'), tr) =>
      (Ok a, set_dbs (delete db) w', Begin db :: tr ++ [Commit db])
  | (Raise e, (_, w'), tr) => (Raise e, w', Begin db :: tr ++ [Rollback db])
  end.

(** [connection.root.timesheet_storage], and the code that uses that
    object. *)
Definition timesheet_storage {A} (body : M (S * world S X) A)
    : M (option S * world S X) A := λ '(root, w),
  match root with
  | None => (Raise (AttributeError "timesheet_storage"), (root, w), [])
  | Some s =>
      match body (s, w) with
      | (r, (s', w'), tr) => (r, (Some s', w'), tr)
      end
  end.

(** [check_and_migrate(timesheet_storage, auto_migrate=auto_migrate)]. *)
Definition migrate (auto_migrate : pyval) : M (S * world S X) unit := λ '(s, w),
  match check_and_migrate s auto_migrate with
  | Ok s' => (Ok tt, (s', w), [Migrate auto_migrate])
  | Raise e => (Raise e, (s, w), [Migrate auto_migrate])
  end.

(** A call of the method [meth] of the store object. *)
Definition ts_call (meth : string) (args : list pyval) (kw : kwargs)
    : M (S * world S X) pyval := λ '(s, w),
  match ts_method meth args kw s (w_ext w) with
  | (Ok (v, s'), x) => (Ok v, (s', set_ext x w), [Call meth args kw])
  | (Raise e, x) => (Raise e, (s, set_ext x w), [Call meth args kw])
  end.

(** [with ots_filestore(obj) as timesheet_storage: body]. *)
Definition ots_filestore {A} (obj : ctx_obj) (body : M (S * world S X) A)
    : M (world S X) A :=
  db ← _get_database obj;
  let auto_migrate :=
    dict_get (default ∅ (obj_config obj)) "auto_migrate" (VBool true) in
  db_transaction db (timesheet_storage (migrate auto_migrate;; body)).

Definition _do_setup (config_dir : string) : M (world S X) (config * string) :=
  cfg ← _load_config config_dir;
  let filestore_file_name :=
    dict_get cfg "filestore" (VStr DEFAULT_FILESTORE_FILE_NAME) in
  ensure_path config_dir;;
  db ← match filestore_file_name with
       | VStr name => mret (path_join config_dir name)
       | _ => raise (TypeError "unsupported operand type(s) for /")
       end;
  db_transaction db
    (modify (λ '(root, w), (Some (default TimesheetFileStore root), w)));;
  mret (cfg, db).

Definition cli (config_dir : string) : M (world S X) ctx_obj :=
  '(cfg, db) ← _do_setup config_dir;
  mret (Obj (Some config_dir) (Some db) (Some cfg)).

Definition today : M (world S X) date := gets (λ w, date_today (w_ext w)).

Definition add (obj : ctx_obj) (task_code : string)
    (duration description : option string) (task_id project_id : option Z)
    (date : option date) : M (world S X) unit :=
  date ← match date with
         | None => d ← today; mret (VDate d)
         | Some d => mret (VDateTime d)
         end;
  ots_filestore obj
    (ts_call "add_timesheet" []
       [("task_code", VStr task_code); ("description", of_str description);
        ("date", date); ("duration", of_str duration);
        ("project_id", of_int project_id); ("task_id", of_int task_id)];;
     mret tt).

Definition start (obj : ctx_obj) (task_code description : option string)
    (task_id project_id : option Z) : M (world S X) unit :=
  ots_filestore obj
    (ts_call "add_and_start_timesheet" []
       [("task_code", of_str task_code); ("description", of_str description);
        ("task_id", of_int task_id); ("project_id", of_int project_id)];;
     mret tt).

Definition stop (obj : ctx_obj) : M (world S X) unit :=
  ots_filestore obj (ts_call "stop_running" [] [];; mret tt).

Definition edit (obj : ctx_obj) (index : string)
    (description duration code : option string)
    (task_id project_id : option Z) : M (world S X) unit :=
  ots_filestore obj
    (timesheet_edited ←
       ts_call "edit_timesheet" [VStr index]
         [("description", of_str description); ("duration", of_str duration);
          ("task_code", of_str code); ("task_id", of_int task_id);
          ("project_id", of_int project_id)];
     if truthy timesheet_edited
     then lift_snd (echo "Timesheet updated.")
     else lift_snd (echo "Nothing to update.")).

Definition transfer (obj : ctx_obj) (duration index_from index_to : string)
    : M (world S X) unit :=
  ots_filestore obj (mret tt).

Definition drop (obj : ctx_obj) (index : string) (force : bool)
    : M (world S X) unit :=
  proceed ←
    (if force then mret true
     else
       drop_confirmed ← click_confirm "Confirm dropping timesheet" (VBool false);
       if truthy drop_confirmed then mret true
       else echo "Timesheet drop aborted.";; mret false);
  if proceed : bool
  then ots_filestore obj (ts_call "drop_timesheet" [VStr index] [];; mret tt)
  else mret tt.

Definition lunch (obj : ctx_obj) : M (world S X) unit :=
  ots_filestore obj
    (ts_call "add_and_start_timesheet" []
       [("description", VStr "Lunch"); ("is_worktime", VBool false)];;
     mret tt).

Definition resume (obj : ctx_obj) (index : option string) : M (world S X) unit :=
  ots_filestore obj (ts_call "resume" [of_str index] [];; mret tt).

Definition alias_list (obj : ctx_obj) (details : bool) : M (world S X) unit :=
  ots_filestore obj
    (ts_call "print_aliases" [] [("include_details", VBool details)];; mret tt).

(** The callback of the [alias] group; [invoked_subcommand] tells whether
    a sub command follows. *)
Definition alias (obj : ctx_obj) (invoked_subcommand : bool) : M (world S X) unit :=
  if invoked_subcommand then mret tt else alias_list obj false.

Definition alias_add (obj : ctx_obj) (name : string)
    (task_code description : option string) (project_id task_id : option Z)
    : M (world S X) unit :=
  ots_filestore obj
    (ts_call "add_alias" [VStr name]
       [("task_code", of_str task_code); ("description", of_str description);
        ("project_id", of_int project_id); ("task_id", of_int task_id)];;
     mret tt).

Definition alias_delete (obj : ctx_obj) (name : string) : M (world S X) unit :=
  ots_filestore obj (ts_call "delete_alias" [VStr name] [];; mret tt).

Definition alias_update (obj : ctx_obj) (name : option string) (update_all : bool)
    : M (world S X) unit :=
  if negb (truthy (of_str name)) && negb update_all
  then emit EchoHelp
  else if truthy (of_str name) && update_all
  then raise (UsageError "If 'all' flag is given, name should be omitted.")
  else ots_filestore obj (ts_call "update_alias" [of_str name] [];; mret tt).

Definition push (obj : ctx_obj) (index : option string) (dt : option date)
    (force : bool) : M (world S X) unit :=
  (* date = dt.date() when dt is given *)
  let date := dt in
  (* with both a date and an index the usage error is built, and dropped *)
  let _usage_error :=
    if bool_decide (is_Some dt) && truthy (of_str index)
    then Some (UsageError
      ("Give an index or a date, not both. If you want to push a single timesheet, "
       +:+ "use an index. If you want to push an entire date, use a date instead."))
    else None in
  (if force then mret tt
   else
     to_be_pushed ←
       (if truthy (of_str index) then mret (py_str (of_str index))
        else match date with
             | Some d => mret (isoformat d)
             | None => d ← today; mret (isoformat d)
             end);
     confirmed ← click_confirm ("Push " +:+ to_be_pushed +:+ "?") (VBool false);
     if truthy confirmed then mret tt else raise Abort);;
  ots_filestore obj
    (ts_call "push" [of_str index; from_option VDate VNone date] [];; mret tt).

Definition search (obj : ctx_obj) (search_term : string) : M (world S X) unit :=
  ots_filestore obj (ts_call "odoo_search_task" [VStr search_term] [];; mret tt).

Definition list_timesheets (obj : ctx_obj) (days : Z) (date : option string)
    : M (world S X) unit :=
  date_obj ←
    (if truthy (of_str date)
     then match parser_parse (default "" date) with
          | Ok d => mret d
          | Raise e => raise e
          end
     else today);
  ots_filestore obj
    (for_each (reverse (range 0 days))
       (λ days, ts_call "print_date" [VDate (date_obj - days)] [];; mret tt)).

Definition planning (obj : ctx_obj) : M (world S X) unit :=
  ots_filestore obj (ts_call "odoo_print_project_planning" [] [];; mret tt).

(** [obj['config_dir']]. *)
Definition obj_getitem_config_dir (obj : ctx_obj) : M (world S X) string :=
  match obj_config_dir obj with
  | Some dir => mret dir
  | None => raise (KeyError "config_dir")
  end.

Definition login (obj : ctx_obj) (database : option string) : M (world S X) unit :=
  let cfg := default ∅ (obj_config obj) in
  let default_hostname := dict_get cfg "odoo_hostname" VNone in
  let default_username := dict_get cfg "odoo_login" VNone in
  let default_ssl := dict_get cfg "ssl" (VBool true) in
  hostname ←
    click_prompt "Odoo's hostname e.g. 'mycompany.odoo.com'" default_hostname false;
  username ← click_prompt "Username" default_username false;
  ssl ← click_confirm "SSL?" default_ssl;
  let default_port := if truthy ssl then VStr "443" else VStr "80" in
  port ← click_prompt "Port" default_port false;
  password ← click_prompt "Password" VNone true;
  let cfg :=
    dict_update cfg
      [("odoo_hostname", hostname); ("odoo_login", username); ("ssl", ssl);
       ("odoo_port", port); ("odoo_db", of_str database)] in
  (* the dict updated is the one held by obj, when obj holds one *)
  let obj := Obj (obj_config_dir obj) (obj_db obj) ((λ _, cfg) <$> obj_config obj) in
  config_dir ← obj_getitem_config_dir obj;
  _save_config cfg config_dir;;
  ots_filestore obj
    (user_id ←
       ts_call "login" [username; password]
         [("hostname", hostname); ("ssl", ssl); ("port", port);
          ("database", of_str database); ("save", VBool true)];
     lift_snd (echo ("Successfully logged in as uid " +:+ py_str user_id +:+ "."))).

Definition logout (obj : ctx_obj) : M (world S X) unit :=
  ots_filestore obj
    (ts_call "logout" [] [];; lift_snd (echo "Session removed.")).

Definition setup (obj : ctx_obj) (advanced : bool) : M (world S X) unit :=
  let cfg := default ∅ (obj_config obj) in
  let default_filestore :=
    dict_get cfg "filestore" (VStr DEFAULT_FILESTORE_FILE_NAME) in
  let default_auto_migrate := dict_get cfg "auto_migrate" (VBool true) in
  auto_migrate ←
    click_prompt
      ("Automatically migrate filestore to new version when OTS version "
       +:+ "is upgraded?")
      default_auto_migrate false;
  let config_values := [("auto_migrate", auto_migrate)] in
  config_values ←
    (if advanced
     then
       filestore ←
         click_prompt
           ("Name of the local filestore file that stores the Timesheets. "
            +:+ "This can be used to have several separate local databases of timesheets.")
           default_filestore false;
       filestore ←
         match filestore with
         | VStr s => mret (if endswith s ".fs" then s else s +:+ ".fs")
         | _ => raise (AttributeError "endswith")
         end;
       mret (config_values ++ [("filestore", VStr filestore)])
     else mret config_values);
  let cfg := dict_update cfg config_values in
  config_dir ← obj_getitem_config_dir obj;
  _save_config cfg config_dir.

Definition update (obj : ctx_obj) (index : string) : M (world S X) unit :=
  ots_filestore obj
    (ts_call "update_timesheet_odoo_data" [VStr index] [];; mret tt).

(** The callback of a command on the context object. *)
Definition run_command (obj : ctx_obj) (c : command) : M (world S X) unit :=
  match c with
  | CmdAdd task_code duration description task_id project_id date =>
      add obj task_code duration description task_id project_id date
  | CmdStart task_code description task_id project_id =>
      start obj task_code description task_id project_id
  | CmdStop => stop obj
  | CmdEdit index description duration code task_id project_id =>
      edit obj index description duration code task_id project_id
  | CmdTransfer duration index_from index_to =>
      transfer obj duration index_from index_to
  | CmdDrop index force => drop obj index force
  | CmdLunch => lunch obj
  | CmdResume index => resume obj index
  | CmdAlias => alias obj false
  | CmdAliasList details => alias obj true;; alias_list obj details
  | CmdAliasAdd name task_code description project_id task_id =>
      alias obj true;; alias_add obj name task_code description project_id task_id
  | CmdAliasDelete name => alias obj true;; alias_delete obj name
  | CmdAliasUpdate name update_all => alias obj true;; alias_update obj name update_all
  | CmdPush index dt force => push obj index dt force
  | CmdSearch search_term => search obj search_term
  | CmdList days date => list_timesheets obj days date
  | CmdPlanning => planning obj
  | CmdLogin database => login obj database
  | CmdLogout => logout obj
  | CmdSetup advanced => setup obj advanced
  | CmdUpdate index => update obj index
  end.

(** One run of the program: the group callback [cli], then the command. *)
Definition main (config_dir : string) (c : command) : M (world S X) unit :=
  obj ← cli config_dir;
  run_command obj c.
End Commands.
End Cli.

(** ** The time sheet store of the design document

    The class [TimesheetFileStore] and the function [check_and_migrate] are
    imported by [cli.py] from modules that are described by the design
    document only.  This module follows its sections 3 and 4: entries
    addressed by day and position, the state machine of the single running
    entry, edit and drop, the alias table and the schema migration.  Dropped
    entries leave a tombstone (the policy section 4.4 recommends), and time
    is counted in minutes. *)

Module Store.

(** Modelled from the spec: the record of one time sheet entry (section 3,
    Entry); the class that holds it is missing. *)
Record Entry : Type := mkEntry {
  e_date : date;
  e_position : nat;
  e_task_code : option string;
  e_task_id : option Z;
  e_project_id : option Z;
  e_description : option string;
  e_duration : Z;
  e_is_worktime : bool;
  e_running : bool;
  e_start_time : option Z;
  e_remote_ref : option Z;
}.

Global Instance Entry_eq_dec : EqDecision Entry.
Proof. solve_decision. Defined.

(** Modelled from the spec: an alias, a template of entry fields
    (section 3, Alias). *)
Record Alias : Type := mkAlias {
  a_task_code : option string;
  a_task_id : option Z;
  a_project_id : option Z;
  a_description : option string;
}.

(** A pointer to an entry: its day and its position in the day log. *)
Definition ref : Type := date * nat.

(** Modelled from the spec: the root aggregate (section 3, Store).  A day
    log is the list of its positions, [None] where an entry was dropped. *)
Record t : Type := mkStore {
  days : gmap Z (list (option Entry));
  aliases : gmap string Alias;
  running : option ref;
  previous : list ref;
  schema_version : Z;
}.

(** Modelled from the spec: the fields a new entry is created from, as
    the [start], [lunch] and [add] commands pass them. *)
Record EntrySpec : Type := mkSpec {
  s_task_code : option string;
  s_description : option string;
  s_task_id : option Z;
  s_project_id : option Z;
  s_is_worktime : bool;
}.

(** Modelled from the spec: the fields an edit may give (section 4.4). *)
Record EditFields : Type := mkFields {
  f_description : option string;
  f_duration : option string;
  f_task_code : option string;
  f_task_id : option Z;
  f_project_id : option Z;
}.

(** Modelled from the spec: the error taxonomy of section 7, as Python
    exception classes. *)
Definition FormatError (msg : string) : exn := Error "FormatError" msg.
Definition AddressError (msg : string) : exn := Error "AddressError" msg.
Definition ValidationError (msg : string) : exn := Error "ValidationError" msg.
Definition NoHistoryError : exn := Error "NoHistoryError" "no previous timesheet".
Definition MigrationRequiredError : exn :=
  Error "MigrationRequiredError" "the filestore needs a migration".
Definition UnsupportedVersionError : exn :=
  Error "UnsupportedVersionError" "the filestore is newer than the program".

(** Modelled from the spec: a store as [TimesheetFileStore()] creates it,
    at the schema version [version]. *)
Definition empty (version : Z) : t := mkStore ∅ ∅ None [] version.

(** Modelled from the spec: the depth of the stack of previously running
    entries (section 3: bounded, at least 1). *)
Definition history_depth : nat := 1.

(** *** Text *)

Definition digit_of (c : ascii) : option Z :=
  let n := Z.of_N (N_of_ascii c) in
  if (48 <=? n) && (n <=? 57) then Some (n - 48) else None.

Fixpoint parse_digits (acc : Z) (s : string) : option Z :=
  match s with
  | EmptyString => Some acc
  | String c rest => d ← digit_of c; parse_digits (10 * acc + d) rest
  end.

(** A non-empty string of decimal digits. *)
Definition parse_number (s : string) : option Z :=
  match s with
  | EmptyString => None
  | _ => parse_digits 0 s
  end.

(** The text before the first [sep], and the text after it if [sep]
    occurs. *)
Fixpoint split_first (sep : ascii) (s : string) : string * option string :=
  match s with
  | EmptyString => (EmptyString, None)
  | String c rest =>
      if decide (c = sep) then (EmptyString, Some rest)
      else
        match split_first sep rest with
        | (before, after) => (String c before, after)
        end
  end.

(** Modelled from the spec: the duration codec, [parse] (section 4.1):
    [HH:mm] in minutes, minutes below 60. *)
Definition parse_duration (text : string) : option Z :=
  match split_first ":"%char text with
  | (hh, Some mm) =>
      h ← parse_number hh;
      m ← parse_number mm;
      if m <? 60 then Some (60 * h + m) else None
  | (_, None) => None
  end.

(** A parsed duration argument of an edit: a new value, or an amount to
    add to the present one. *)
Inductive delta : Type :=
| Replace (minutes : Z)
| Adjust (minutes : Z).

(** Modelled from the spec: the duration codec, [parse_delta]
    (section 4.1). *)
Definition parse_delta (text : string) : option delta :=
  match text with
  | String "+"%char rest => Adjust <$> parse_duration rest
  | String "-"%char rest => (λ m, Adjust (- m)) <$> parse_duration rest
  | _ => Replace <$> parse_duration text
  end.

Definition apply_delta (dl : delta) (duration : Z) : Z :=
  match dl with
  | Replace m => m
  | Adjust m => Z.max 0 (duration + m)
  end.

(** Modelled from the spec: the grammar of an index token (section 4.2):
    [N], or [D.N] with the day offset [D]. *)
Definition parse_index (token : string) : option (Z * nat) :=
  match split_first "."%char token with
  | (n, None) => p ← parse_number n; Some (0, Z.to_nat p)
  | (d, Some n) => o ← parse_number d; p ← parse_number n; Some (o, Z.to_nat p)
  end.

(** *** Day logs *)

(** The entry a pointer refers to, if the day has a log, the position is
    in range and the entry was not dropped. *)
Definition lookup_entry (ds : gmap Z (list (option Entry))) (r : ref)
    : option Entry :=
  log ← ds !! r.1; slot ← log !! r.2; slot.

Definition entry_at (st : t) (r : ref) : option Entry := lookup_entry (days st) r.

(** Change the entry a pointer refers to. *)
Definition update_entry (r : ref) (f : Entry → Entry)
    (ds : gmap Z (list (option Entry))) : gmap Z (list (option Entry)) :=
  alter (alter (fmap f) r.2) r.1 ds.

(** Leave a tombstone where a pointer refers to. *)
Definition bury_entry (r : ref) (ds : gmap Z (list (option Entry)))
    : gmap Z (list (option Entry)) :=
  alter (alter (λ _, None) r.2) r.1 ds.

(** The position the next entry of a day gets: the day log is created on
    the first entry. *)
Definition next_position (d : date) (ds : gmap Z (list (option Entry))) : nat :=
  length (default [] (ds !! d)).

Definition append_entry (d : date) (e : Entry)
    (ds : gmap Z (list (option Entry))) : gmap Z (list (option Entry)) :=
  <[d := default [] (ds !! d) ++ [Some e]]> ds.

(** Modelled from the spec: the address resolver (section 4.2). *)
Definition resolve (token : string) (today : date) (st : t) : result ref :=
  match parse_index token with
  | None => Raise (AddressError token)
  | Some (offset, position) =>
      let r := (today - offset, position) in
      match entry_at st r with
      | Some _ => Ok r
      | None => Raise (AddressError token)
      end
  end.

(** *** The running timer (section 4.3) *)

(** An entry is stopped: the time since it was started is added to what it
    had before. *)
Definition stop_entry (now : Z) (e : Entry) : Entry :=
  mkEntry (e_date e) (e_position e) (e_task_code e) (e_task_id e)
    (e_project_id e) (e_description e)
    (Z.max 0 (e_duration e + from_option (λ t0, now - t0) 0 (e_start_time e)))
    (e_is_worktime e) false None (e_remote_ref e).

Definition start_entry (now : Z) (e : Entry) : Entry :=
  mkEntry (e_date e) (e_position e) (e_task_code e) (e_task_id e)
    (e_project_id e) (e_description e) (e_duration e)
    (e_is_worktime e) true (Some now) (e_remote_ref e).

Definition push_previous (r : ref) (stack : list ref) : list ref :=
  take history_depth (r :: stack).

(** Modelled from the spec: the transition out of [Running(e)]: the entry
    is stopped and pushed on the stack of previously running entries. *)
Definition close_running (now : Z) (st : t) : t :=
  match running st with
  | None => st
  | Some r =>
      mkStore (update_entry r (stop_entry now) (days st)) (aliases st) None
        (push_previous r (previous st)) (schema_version st)
  end.

(** Modelled from the spec: the transition into [Running(e)] for an entry
    of the log. *)
Definition open_entry (now : Z) (r : ref) (st : t) : t :=
  mkStore (update_entry r (start_entry now) (days st)) (aliases st) (Some r)
    (previous st) (schema_version st).

(** The defaults of an alias are substituted when the task code of the new
    entry is the name of an alias; what the caller gives wins. *)
Definition expand_alias (sp : EntrySpec) (st : t) : EntrySpec :=
  match s_task_code sp ≫= (λ name, aliases st !! name) with
  | None => sp
  | Some a =>
      mkSpec (a_task_code a)
        (from_option Some (a_description a) (s_description sp))
        (from_option Some (a_task_id a) (s_task_id sp))
        (from_option Some (a_project_id a) (s_project_id sp))
        (s_is_worktime sp)
  end.

Definition new_entry (sp : EntrySpec) (d : date) (position : nat)
    (duration : Z) (start_time : option Z) : Entry :=
  mkEntry d position (s_task_code sp) (s_task_id sp) (s_project_id sp)
    (s_description sp) duration (s_is_worktime sp)
    (bool_decide (is_Some start_time)) start_time None.

(** Modelled from the spec: [add_and_start(spec)]. *)
Definition add_and_start (sp : EntrySpec) (now : Z) (today : date) (st : t) : t :=
  let st := close_running now st in
  let position := next_position today (days st) in
  let e := new_entry (expand_alias sp st) today position 0 (Some now) in
  mkStore (append_entry today e (days st)) (aliases st)
    (Some (today, position)) (previous st) (schema_version st).

(** Modelled from the spec: [stop_running()]; nothing happens when no
    entry is running. *)
Definition stop_running (now : Z) (st : t) : t := close_running now st.

(** Modelled from the spec: [resume(index?)]. *)
Definition resume (index : option string) (now : Z) (today : date) (st : t)
    : result t :=
  match index with
  | Some token =>
      match resolve token today st with
      | Raise e => Raise e
      | Ok r => Ok (open_entry now r (close_running now st))
      end
  | None =>
      match previous st with
      | [] => Raise NoHistoryError
      | r :: rest =>
          match entry_at st r with
          | None => Raise (AddressError "the previous timesheet was dropped")
          | Some _ =>
              let st := mkStore (days st) (aliases st) (running st) rest
                          (schema_version st) in
              Ok (open_entry now r (close_running now st))
          end
      end
  end.

(** Modelled from the spec: [add_timesheet(spec)]: a closed entry is
    appended, the state machine is not touched. *)
Definition add_timesheet (sp : EntrySpec) (d : date) (duration : option string)
    (st : t) : result t :=
  match from_option parse_duration (Some 0) duration with
  | None => Raise (FormatError (default "" duration))
  | Some minutes =>
      let e := new_entry (expand_alias sp st) d (next_position d (days st))
                 minutes None in
      Ok (mkStore (append_entry d e (days st)) (aliases st) (running st)
            (previous st) (schema_version st))
  end.

(** The fields given replace those of the entry; the duration is replaced
    or adjusted. *)
Definition edit_entry (fs : EditFields) (dl : option delta) (e : Entry) : Entry :=
  mkEntry (e_date e) (e_position e)
    (from_option Some (e_task_code e) (f_task_code fs))
    (from_option Some (e_task_id e) (f_task_id fs))
    (from_option Some (e_project_id e) (f_project_id fs))
    (from_option Some (e_description e) (f_description fs))
    (from_option (λ dl, apply_delta dl (e_duration e)) (e_duration e) dl)
    (e_is_worktime e) (e_running e) (e_start_time e) (e_remote_ref e).

(** Modelled from the spec: [edit(index, fields...)]: the store, and
    whether a field of the entry changed (section 4.4). *)
Definition edit (index : string) (fs : EditFields) (today : date) (st : t)
    : result (bool * t) :=
  match resolve index today st with
  | Raise e => Raise e
  | Ok r =>
      match f_duration fs with
      | Some text =>
          match parse_delta text with
          | None => Raise (FormatError text)
          | Some dl =>
              let f := edit_entry fs (Some dl) in
              Ok (bool_decide (f <$> entry_at st r ≠ entry_at st r),
                  mkStore (update_entry r f (days st)) (aliases st)
                    (running st) (previous st) (schema_version st))
          end
      | None =>
          let f := edit_entry fs None in
          Ok (bool_decide (f <$> entry_at st r ≠ entry_at st r),
              mkStore (update_entry r f (days st)) (aliases st)
                (running st) (previous st) (schema_version st))
      end
  end.

(** Modelled from the spec: [drop(index)], with a tombstone. *)
Definition drop (index : string) (today : date) (st : t) : result t :=
  match resolve index today st with
  | Raise e => Raise e
  | Ok r =>
      Ok (mkStore (bury_entry r (days st)) (aliases st) (running st)
            (previous st) (schema_version st))
  end.

(** *** The alias table (section 4.5) *)

(** Modelled from the spec: [add(name, ...)] of the alias table. *)
Definition add_alias (name : string) (a : Alias) (st : t) : result t :=
  match a with
  | mkAlias None None None None =>
      Raise (ValidationError "an alias needs a task code, an id or a description")
  | _ =>
      Ok (mkStore (days st) (<[name := a]> (aliases st)) (running st)
            (previous st) (schema_version st))
  end.

(** Modelled from the spec: [delete(name)] of the alias table. *)
Definition delete_alias (name : string) (st : t) : t :=
  mkStore (days st) (delete name (aliases st)) (running st) (previous st)
    (schema_version st).

(** *** The schema migration (section 4.7) *)

Definition set_version (v : Z) (st : t) : t :=
  mkStore (days st) (aliases st) (running st) (previous st) v.

Section Migration.
(** The chain of upgraders: the one at place [v] takes a store of
    version [v] to the layout of version [v + 1].  The version the
    program expects is the one the whole chain leads to. *)
Variable upgraders : list (t → t).

Definition CURRENT_VERSION : Z := Z.of_nat (length upgraders).

(** Modelled from the spec: [check_and_migrate(store, auto_migrate)]
    of the migration package. *)
Definition check_and_migrate (st : t) (auto_migrate : pyval) : result t :=
  let v := schema_version st in
  if v =? CURRENT_VERSION then Ok st
  else if v <? CURRENT_VERSION then
    if truthy auto_migrate
    then Ok (set_version CURRENT_VERSION
               (foldl (λ s up, up s) st (skipn (Z.to_nat v) upgraders)))
    else Raise MigrationRequiredError
  else Raise UnsupportedVersionError.
End Migration.

(** *** The operations as the commands call them *)

(** The operations of the state engine. *)
Inductive op : Type :=
| AddAndStart (sp : EntrySpec)
| StopRunning
| Resume (index : option string)
| AddTimesheet (sp : EntrySpec) (d : date) (duration : option string)
| Edit (index : string) (fs : EditFields)
| Drop (index : string)
| AddAlias (name : string) (a : Alias)
| DeleteAlias (name : string).

(** An operation at a time of the clock: the value the method returns
    and the store, or the error. *)
Definition apply (o : op) (now : Z) (today : date) (st : t) : result (pyval * t) :=
  match o with
  | AddAndStart sp => Ok (VNone, add_and_start sp now today st)
  | StopRunning => Ok (VNone, stop_running now st)
  | Resume index =>
      match resume index now today st with
      | Ok st' => Ok (VNone, st')
      | Raise e => Raise e
      end
  | AddTimesheet sp d duration =>
      match add_timesheet sp d duration st with
      | Ok st' => Ok (VNone, st')
      | Raise e => Raise e
      end
  | Edit index fs =>
      match edit index fs today st with
      | Ok (changed, st') => Ok (VBool changed, st')
      | Raise e => Raise e
      end
  | Drop index =>
      match drop index today st with
      | Ok st' => Ok (VNone, st')
      | Raise e => Raise e
      end
  | AddAlias name a =>
      match add_alias name a st with
      | Ok st' => Ok (VNone, st')
      | Raise e => Raise e
      end
  | DeleteAlias name => Ok (VNone, delete_alias name st)
  end.

(** One operation in its transaction: an operation that fails leaves the
    store as it was (section 7). *)
Definition step (st : t) (c : Z * date * op) : t :=
  match apply c.2 c.1.1 c.1.2 st with
  | Ok (_, st') => st'
  | Raise _ => st
  end.

Definition run (steps : list (Z * date * op)) (st : t) : t := foldl step st steps.

(** The value of a keyword argument, [None] when it is not passed. *)
Fixpoint kw_get (kw : kwargs) (key : string) : option pyval :=
  match kw with
  | [] => None
  | (k, v) :: rest => if decide (k = key) then Some v else kw_get rest key
  end.

(** An optional text or number argument: an empty value counts as not
    given. *)
Definition as_text (v : option pyval) : option string :=
  match v with
  | Some (VStr s) => if truthy (VStr s) then Some s else None
  | _ => None
  end.

Definition as_number (v : option pyval) : option Z :=
  match v with
  | Some (VInt n) => Some n
  | _ => None
  end.

Definition as_date (v : option pyval) : option date :=
  match v with
  | Some (VDate d) | Some (VDateTime d) => Some d
  | _ => None
  end.

(** [is_worktime] is true unless the caller says otherwise. *)
Definition spec_of (kw : kwargs) : EntrySpec :=
  mkSpec (as_text (kw_get kw "task_code")) (as_text (kw_get kw "description"))
    (as_number (kw_get kw "task_id")) (as_number (kw_get kw "project_id"))
    (from_option truthy true (kw_get kw "is_worktime")).

Definition fields_of (kw : kwargs) : EditFields :=
  mkFields (as_text (kw_get kw "description")) (as_text (kw_get kw "duration"))
    (as_text (kw_get kw "task_code")) (as_number (kw_get kw "task_id"))
    (as_number (kw_get kw "project_id")).

(** The operation a method call of [cli.py] stands for. *)
Definition decode (meth : string) (args : list pyval) (kw : kwargs)
    : option (result op) :=
  if decide (meth = "add_and_start_timesheet") then
    Some (Ok (AddAndStart (spec_of kw)))
  else if decide (meth = "stop_running") then Some (Ok StopRunning)
  else if decide (meth = "resume") then
    Some (Ok (Resume (as_text (head args))))
  else if decide (meth = "add_timesheet") then
    Some (match as_date (kw_get kw "date") with
          | Some d => Ok (AddTimesheet (spec_of kw) d (as_text (kw_get kw "duration")))
          | None => Raise (TypeError "date")
          end)
  else if decide (meth = "edit_timesheet") then
    Some (match head args with
          | Some (VStr index) => Ok (Edit index (fields_of kw))
          | _ => Raise (TypeError "index")
          end)
  else if decide (meth = "drop_timesheet") then
    Some (match head args with
          | Some (VStr index) => Ok (Drop index)
          | _ => Raise (TypeError "index")
          end)
  else if decide (meth = "add_alias") then
    Some (match head args with
          | Some (VStr name) =>
              Ok (AddAlias name
                    (mkAlias (as_text (kw_get kw "task_code"))
                       (as_number (kw_get kw "task_id"))
                       (as_number (kw_get kw "project_id"))
                       (as_text (kw_get kw "description"))))
          | _ => Raise (TypeError "name")
          end)
  else if decide (meth = "delete_alias") then
    Some (match head args with
          | Some (VStr name) => Ok (DeleteAlias name)
          | _ => Raise (TypeError "name")
          end)
  else None.

(** What the methods of the store see besides the store: the clock, and
    the state [R] of the Odoo server and of the saved session. *)
Record env (R : Type) : Type := Env {
  clock_now : Z;
  clock_today : date;
  remote : R;
}.
Arguments Env {R}.
Arguments clock_now {R}.
Arguments clock_today {R}.
Arguments remote {R}.

Section Methods.
Context {R : Type}.

(** The methods that talk to Odoo or print (push, login, search, the
    listings, the alias refresh) are collaborators of the state engine
    and are left open. *)
Variable other :
  string → list pyval → kwargs → t → env R → result (pyval * t) * env R.

Definition method (meth : string) (args : list pyval) (kw : kwargs)
    (st : t) (x : env R) : result (pyval * t) * env R :=
  match decode meth args kw with
  | Some (Ok o) => (apply o (clock_now x) (clock_today x) st, x)
  | Some (Raise e) => (Raise e, x)
  | None => other meth args kw st x
  end.
End Methods.

End Store.

(** The running pointer is right: an entry that is marked running is the
    one the pointer refers to. *)
Definition pointer_invariant (st : Store.t) : Prop :=
  ∀ r e, Store.entry_at st r = Some e → Store.e_running e = true →
         Store.running st = Some r.

(** No entry is marked running. *)
Definition all_stopped (st : Store.t) : Prop :=
  ∀ r e, Store.entry_at st r = Some e → Store.e_running e = false.

(** No two entries of the store are marked running. *)
Definition at_most_one_running (st : Store.t) : Prop :=
  ∀ r1 r2 e1 e2,
    Store.entry_at st r1 = Some e1 → Store.entry_at st r2 = Some e2 →
    Store.e_running e1 = true → Store.e_running e2 = true → r1 = r2.

(** The store of the design document behind the interface of [cli.py]. *)
Definition spec_backend {R : Type} (upgraders : list (Store.t → Store.t))
    (other : string → list pyval → kwargs → Store.t → Store.env R
             → result (pyval * Store.t) * Store.env R)
    (parse : string → result date) : Backend Store.t (Store.env R) :=
  {| TimesheetFileStore := Store.empty (Store.CURRENT_VERSION upgraders);
     ts_method := Store.method other;
     check_and_migrate := Store.check_and_migrate upgraders;
     date_today := Store.clock_today;
     parser_parse := parse |}.

(** ** Reading a run *)

(** Terminal events: output, and questions to the user. *)
Definition is_io (ev : event) : bool :=
  match ev with
  | Echo _ | EchoHelp | AskConfirm _ _ | AskPrompt _ _ _ => true
  | _ => false
  end.

(** What the body of a [with ots_filestore(obj)] block does: method calls
    on the store object and output. *)
Definition is_inner (ev : event) : bool :=
  match ev with
  | Call _ _ _ | Echo _ => true
  | _ => false
  end.

(** Where a run is with respect to the file store: no transaction is open,
    a transaction on [db] was just begun, or the migration check has run in
    the open transaction. *)
Inductive tx_state : Type :=
| Outside
| Opened (db : string)
| Migrated (db : string).

(** The discipline of [ots_filestore]: a transaction begins, the migration
    check runs first in it with the flag [auto], method calls only follow
    the check, and the transaction is ended by a commit or a rollback. *)
Fixpoint tx_run (auto : pyval) (q : tx_state) (tr : trace) : bool :=
  match tr with
  | [] => match q with Outside => true | _ => false end
  | ev :: rest =>
      match q, ev with
      | Outside, Begin db => tx_run auto (Opened db) rest
      | Outside, _ => is_io ev && tx_run auto Outside rest
      | Opened db, Migrate a => bool_decide (a = auto) && tx_run auto (Migrated db) rest
      | Opened db, Rollback db' => bool_decide (db' = db) && tx_run auto Outside rest
      | Opened _, _ => false
      | Migrated db, Commit db' | Migrated db, Rollback db' =>
          bool_decide (db' = db) && tx_run auto Outside rest
      | Migrated db, _ => is_inner ev && tx_run auto (Migrated db) rest
      end
  end.

Definition tx_protocol (auto : pyval) (tr : trace) : bool := tx_run auto Outside tr.

Section Reading.
Context {S X : Type} {backend : Backend S X}.

(** The [auto_migrate] flag as configured: the value of the key in the
    configuration held by [obj], [True] without one. *)
Definition configured_auto_migrate (obj : ctx_obj) : pyval :=
  dict_get (default ∅ (obj_config obj)) "auto_migrate" (VBool true).

(** The store object the body of [with ots_filestore(obj)] works on in the
    world [w]: the committed store after the migration check. *)
Definition store_for (obj : ctx_obj) (w : world S X) : option S :=
  db ← obj_db obj;
  s ← w_dbs w !! db;
  match check_and_migrate s (configured_auto_migrate obj) with
  | Ok s' => Some s'
  | Raise _ => None
  end.

(** The value a store method returns when it is called on that object, if
    it returns. *)
Definition returned (meth : string) (args : list pyval) (kw : kwargs)
    (obj : ctx_obj) (w : world S X) : option pyval :=
  s ← store_for obj w;
  match ts_method meth args kw s (w_ext w) with
  | (Ok (v, _), _) => Some v
  | (Raise _, _) => None
  end.

(** The committed stores after a command whose only work on the store is
    the migration check. *)
Definition after_migration (obj : ctx_obj) (w : world S X) : gmap string S :=
  match obj_db obj with
  | Some db =>
      match store_for obj w with
      | Some s => <[db := s]> (w_dbs w)
      | None => w_dbs w
      end
  | None => w_dbs w
  end.

(** A computation outside a transaction that talks to the terminal and
    leaves the file stores alone. *)
Definition quiet {A} (m : M (world S X) A) : Prop :=
  ∀ w r w' tr, m w = (r, w', tr) →
    w_dbs w' = w_dbs w ∧ w_ext w' = w_ext w ∧ forallb is_io tr = true.

(** The body of a [with ots_filestore(obj)] block: it works on the store
    object only. *)
Definition inner {A} (body : M (S * world S X) A) : Prop :=
  ∀ s w r s' w' tr, body (s, w) = (r, (s', w'), tr) →
    w_dbs w' = w_dbs w ∧ w_configs w' = w_configs w
    ∧ forallb is_inner tr = true.

(** A command that keeps the discipline of the transactions, and leaves
    the committed stores as they were when it fails. *)
Definition disciplined {A} (auto : pyval) (m : M (world S X) A) : Prop :=
  ∀ w r w' tr, m w = (r, w', tr) →
    tx_protocol auto tr = true ∧ (∀ e, r = Raise e → w_dbs w' = w_dbs w).
End Reading.

(** ** A machine without Odoo

    A concrete backend to run the commands on: the store of the design
    document with no pending upgrade, a server that cannot be reached (the
    methods that need it fail with a network error) and a date parser that
    reads [YYYY-MM-DD]. *)

Definition unreachable
    : string → list pyval → kwargs → Store.t → Store.env unit
      → result (pyval * Store.t) * Store.env unit :=
  λ meth _ _ _ x, (Raise (Error "NetworkError" meth), x).

Definition parse_iso (text : string) : result date :=
  match Store.split_first "-" text with
  | (y, Some rest) =>
      match Store.split_first "-" rest with
      | (m, Some d) =>
          match Store.parse_number y, Store.parse_number m, Store.parse_number d with
          | Some y, Some m, Some d => Ok (ordinal_of_ymd y m d)
          | _, _, _ => Raise (Error "ParserError" text)
          end
      | _ => Raise (Error "ParserError" text)
      end
  | _ => Raise (Error "ParserError" text)
  end.

(** The program at the current schema version, and the program after one
    more upgrade of the schema that changes no entry. *)
Definition offline : Backend Store.t (Store.env unit) :=
  spec_backend [] unreachable parse_iso.

Definition offline_upgraded : Backend Store.t (Store.env unit) :=
  spec_backend [λ st, st] unreachable parse_iso.

(** A first run: nothing on disk, nothing typed, at 09:00 on 2024-03-01. *)
Definition fresh (input : list reply) : world Store.t (Store.env unit) :=
  World ∅ ∅ ∅ input (Store.Env 540 (ordinal_of_ymd 2024 3 1) tt).

Definition home : string := "/home/user/.config/ots".

Definition home_db : string := "/home/user/.config/ots/filestore.fs".

(** The context object after the group callback on a fresh machine. *)
Definition home_obj : ctx_obj := Obj (Some home) (Some home_db) (Some ∅).

(** The first of March 2024, and a store written by an older version of
    the program (schema version 0) with two entries of that day. *)
Definition day : date := ordinal_of_ymd 2024 3 1.

Definition old_store : Store.t :=
  Store.run
    [(540, day,
      Store.AddTimesheet (Store.mkSpec (Some "T8217") (Some "Emails") None None true)
        day (Some "01:00"));
     (600, day,
      Store.AddTimesheet (Store.mkSpec (Some "T9000") (Some "Review") None None true)
        day (Some "00:30"))]
    (Store.empty 0).

(** A machine whose file store holds the store [st]. *)
Definition holding (st : Store.t) (input : list reply)
    : world Store.t (Store.env unit) :=
  World {[home]} ∅ {[home_db := st]} input (Store.Env 540 day tt).

(** ** More ways to read a run *)

(** The method calls of a trace, in order. *)
Definition is_call (ev : event) : bool :=
  match ev with
  | Call _ _ _ => true
  | _ => false
  end.

Definition calls (tr : trace) : trace := List.filter is_call tr.

(** The commands whose first step is [with ots_filestore(obj)]. *)
Definition opens_at_once (c : command) : bool :=
  match c with
  | CmdAdd _ _ _ _ _ _ | CmdStart _ _ _ _ | CmdStop | CmdEdit _ _ _ _ _ _
  | CmdTransfer _ _ _ | CmdLunch | CmdResume _ | CmdAlias | CmdAliasList _
  | CmdAliasAdd _ _ _ _ _ | CmdAliasDelete _ | CmdSearch _ | CmdPlanning
  | CmdLogout | CmdUpdate _ => true
  | _ => false
  end.

(** The commands whose first step is a question to the user. *)
Definition asks_first (c : command) : bool :=
  match c with
  | CmdDrop _ false | CmdPush _ _ false | CmdLogin _ | CmdSetup _ => true
  | _ => false
  end.

(** The commands that call [_save_config]. *)
Definition saves_config (c : command) : bool :=
  match c with
  | CmdLogin _ | CmdSetup _ => true
  | _ => false
  end.

(** The command with a loop over the days. *)
Definition prints_days (c : command) : bool :=
  match c with
  | CmdList _ _ => true
  | _ => false
  end.


(** The file name [setup --advanced] stores for the answer [name]. *)
Definition with_fs_suffix (name : string) : string :=
  if endswith name ".fs" then name else name +:+ ".fs".

Section Frames.
Context {S X : Type}.

(** A computation that leaves a part of the world as it was. *)
Definition preserves {T A} (part : world S X → T) (m : M (world S X) A) : Prop :=
  ∀ w r w' tr, m w = (r, w', tr) → part w' = part w.

(** The same for the body of a [with ots_filestore(obj)] block. *)
Definition preserves_in {T A} (part : world S X → T)
    (body : M (S * world S X) A) : Prop :=
  ∀ s w r s' w' tr, body (s, w) = (r, (s', w'), tr) → part w' = part w.

(** A part of the world that is neither the file stores nor what the store
    methods see. *)
Definition apart {T} (part : world S X → T) : Prop :=
  (∀ f w, part (set_dbs f w) = part w) ∧ (∀ x w, part (set_ext x w) = part w).

(** A computation whose transactions are settled when it ends: it has
    committed only if it returns, and has rolled back only if it raises. *)
Definition settled {A} (m : M (world S X) A) : Prop :=
  ∀ w r w' tr, m w = (r, w', tr) →
    (∀ db, In (Commit db) tr → ∃ a, r = Ok a)
    ∧ (∀ db, In (Rollback db) tr → ∃ e, r = Raise e).

(** A computation, and the body of a block, that calls at most [n] methods
    of the store. *)
Definition calls_at_most {A} (n : nat) (m : M (world S X) A) : Prop :=
  ∀ w r w' tr, m w = (r, w', tr) → (length (calls tr) ≤ n)%nat.

Definition calls_at_most_in {A} (n : nat) (body : M (S * world S X) A) : Prop :=
  ∀ st r st' tr, body st = (r, st', tr) → (length (calls tr) ≤ n)%nat.

(** The file stores other than that of [obj]. *)
Definition other_dbs (obj : ctx_obj) (w : world S X) : gmap string S :=
  match obj_db obj with
  | Some db => delete db (w_dbs w)
  | None => w_dbs w
  end.
End Frames.

(** A machine where only the server is missing: the listings print and a
    saved session can be removed, everything that needs Odoo fails with a
    network error. *)
Definition printing
    : string → list pyval → kwargs → Store.t → Store.env unit
      → result (pyval * Store.t) * Store.env unit :=
  λ meth _ _ st x,
    if bool_decide (meth ∈ ["print_date"; "print_aliases"; "logout"])
    then (Ok (VNone, st), x)
    else (Raise (Error "NetworkError" meth), x).

Definition local_only : Backend Store.t (Store.env unit) :=
  spec_backend [] printing parse_iso.

(** A machine with a second file store next to the one of [home]. *)
Definition two_stores : world Store.t (Store.env unit) :=
  set_dbs <["/srv/ots/team.fs" := Store.empty 0]> (holding old_store []).


(** * Facts *)

(** ** The monad *)

Section MonadFacts.
Context {St : Type}.

Lemma bind_run {A B} (m : M St A) (k : A → M St B) (st : St) :
  (m ≫= k) st =
    match m st with
    | (Ok a, st1, tr1) =>
        match k a st1 with
        | (r, st2, tr2) => (r, st2, tr1 ++ tr2)
        end
    | (Raise e, st1, tr1) => (Raise e, st1, tr1)
    end.
Proof. reflexivity. Qed.

Lemma bind_inv {A B} (m : M St A) (k : A → M St B) st r st' tr :
  (m ≫= k) st = (r, st', tr) →
  (∃ a st1 tr1 tr2,
      m st = (Ok a, st1, tr1) ∧ k a st1 = (r, st', tr2) ∧ tr = tr1 ++ tr2)
  ∨ (∃ e, m st = (Raise e, st', tr) ∧ r = Raise e).
Proof.
  rewrite bind_run.
  destruct (m st) as [[[a|e] st1] tr1].
  - destruct (k a st1) as [[r2 st2] tr2] eqn:Hk.
    intros [= <- <- <-]. left. by exists a, st1, tr1, tr2.
  - intros [= <- <- <-]. right. by exists e.
Qed.
End MonadFacts.

(** ** Traces *)

Lemma tx_run_io_app auto pre tr :
  forallb is_io pre = true →
  tx_run auto Outside (pre ++ tr) = tx_run auto Outside tr.
Proof.
  induction pre as [|ev pre IH]; [done|].
  simpl. intros [Hev Hpre]%andb_prop.
  destruct ev; try discriminate; simpl; auto.
Qed.

Lemma tx_run_io auto tr : forallb is_io tr = true → tx_run auto Outside tr = true.
Proof.
  intros H. rewrite <- (app_nil_r tr). by rewrite tx_run_io_app.
Qed.

Lemma tx_run_inner_end auto db body fin tl :
  forallb is_inner body = true →
  fin = Commit db ∨ fin = Rollback db →
  tx_run auto (Migrated db) (body ++ fin :: tl) = tx_run auto Outside tl.
Proof.
  intros Hbody Hfin.
  induction body as [|ev body IH].
  - destruct Hfin as [-> | ->]; simpl; by rewrite bool_decide_eq_true_2.
  - simpl in Hbody. apply andb_prop in Hbody as [Hev Hbody].
    destruct ev; try discriminate; simpl; auto.
Qed.

Lemma forallb_app_true {A} (p : A → bool) (xs ys : list A) :
  forallb p xs = true → forallb p ys = true → forallb p (xs ++ ys) = true.
Proof. intros Hx Hy. rewrite forallb_app. by rewrite Hx, Hy. Qed.

(** Every migration check of a run that keeps the discipline has the flag
    of the discipline. *)
Lemma tx_run_migrate auto q tr a :
  tx_run auto q tr = true → In (Migrate a) tr → a = auto.
Proof.
  revert q. induction tr as [|ev tr IH]; [by intros ? _ []|].
  intros q Hrun [-> | Hin].
  - destruct q; simpl in Hrun; try discriminate.
    apply andb_prop in Hrun as [Ha _]. by apply bool_decide_eq_true in Ha.
  - destruct q, ev; simpl in Hrun; try discriminate;
      try (apply andb_prop in Hrun as [_ Hrun]); eauto.
Qed.

(** ** The pieces of a command *)

Section CliFacts.
Context {S X : Type} {backend : Backend S X}.

Lemma quiet_ret {A} (a : A) : quiet (mret a : M (world S X) A).
Proof. by intros w r w' tr [= <- <- <-]. Qed.

Lemma quiet_raise {A} (e : exn) : quiet (raise e : M (world S X) A).
Proof. by intros w r w' tr [= <- <- <-]. Qed.

Lemma quiet_bind {A B} (m : M (world S X) A) (k : A → M (world S X) B) :
  quiet m → (∀ a, quiet (k a)) → quiet (m ≫= k).
Proof.
  intros Hm Hk w r w' tr Hrun.
  apply bind_inv in Hrun as [(a & w1 & tr1 & tr2 & H1 & H2 & ->) | (e & H1 & ->)].
  - apply Hm in H1 as (Hd1 & Hx1 & Ht1). apply Hk in H2 as (Hd2 & Hx2 & Ht2).
    split_and!; [congruence | congruence | by apply forallb_app_true].
  - by apply Hm in H1.
Qed.

Lemma quiet_gets {A} (f : world S X → A) : quiet (gets f).
Proof. by intros w r w' tr [= <- <- <-]. Qed.

Lemma quiet_today : quiet Cli.today.
Proof. apply quiet_gets. Qed.

Lemma quiet_echo text : quiet (echo text : M (world S X) unit).
Proof. by intros w r w' tr [= <- <- <-]. Qed.

Lemma quiet_help : quiet (emit EchoHelp : M (world S X) unit).
Proof. by intros w r w' tr [= <- <- <-]. Qed.

Lemma quiet_ask ev dflt : is_io ev = true → quiet (ask ev dflt : M (world S X) pyval).
Proof.
  intros Hev w r w' tr. unfold ask.
  destruct (read_reply dflt (w_stdin w)) as [[v rest]|];
    intros [= <- <- <-]; simpl; by rewrite Hev.
Qed.

Lemma quiet_confirm text dflt : quiet (click_confirm text dflt : M (world S X) pyval).
Proof. by apply quiet_ask. Qed.

Lemma quiet_prompt text dflt hidden :
  quiet (click_prompt text dflt hidden : M (world S X) pyval).
Proof. by apply quiet_ask. Qed.

Lemma quiet_save_config cfg path : quiet (Cli._save_config cfg path : M (world S X) unit).
Proof.
  unfold Cli._save_config, Cli.ensure_path.
  repeat apply quiet_bind; intros; try apply quiet_echo;
    by intros w r w' tr [= <- <- <-].
Qed.

Lemma quiet_config_dir obj : quiet (Cli.obj_getitem_config_dir obj : M (world S X) string).
Proof.
  unfold Cli.obj_getitem_config_dir.
  destruct (obj_config_dir obj); [apply quiet_ret | apply quiet_raise].
Qed.

Lemma inner_ret {A} (a : A) : inner (mret a : M (S * world S X) A).
Proof. by intros s w r s' w' tr [= <- <- <- <-]. Qed.

Lemma inner_bind {A B} (m : M (S * world S X) A) (k : A → M (S * world S X) B) :
  inner m → (∀ a, inner (k a)) → inner (m ≫= k).
Proof.
  intros Hm Hk s w r s' w' tr Hrun.
  apply bind_inv in Hrun
    as [(a & [s1 w1] & tr1 & tr2 & H1 & H2 & ->) | (e & H1 & ->)].
  - apply Hm in H1 as (Hd1 & Hc1 & Ht1). apply Hk in H2 as (Hd2 & Hc2 & Ht2).
    split_and!; [congruence | congruence | by apply forallb_app_true].
  - by apply Hm in H1.
Qed.

Lemma inner_ts_call meth args kw : inner (Cli.ts_call meth args kw).
Proof.
  intros s w r s' w' tr. unfold Cli.ts_call.
  destruct (ts_method meth args kw s (w_ext w)) as [[[v s1]|e] x];
    by intros [= <- <- <- <-].
Qed.

Lemma inner_echo text : inner (lift_snd (echo text) : M (S * world S X) unit).
Proof. by intros s w r s' w' tr [= <- <- <- <-]. Qed.

Lemma inner_for_each {A} (xs : list A) (body : A → M (S * world S X) unit) :
  (∀ x, inner (body x)) → inner (for_each xs body).
Proof.
  intros Hbody. induction xs as [|x xs IH]; simpl.
  - apply inner_ret.
  - apply inner_bind; auto.
Qed.

(** What [with ots_filestore(obj)] does, step by step. *)
Lemma ots_filestore_run {A} obj db (body : M (S * world S X) A) w :
  obj_db obj = Some db →
  Cli.ots_filestore obj body w =
    let auto := configured_auto_migrate obj in
    match w_dbs w !! db with
    | None =>
        (Raise (AttributeError "timesheet_storage"), w, [Begin db; Rollback db])
    | Some s =>
        match check_and_migrate s auto with
        | Raise e => (Raise e, w, [Begin db; Migrate auto; Rollback db])
        | Ok s1 =>
            match body (s1, w) with
            | (Ok a, (s2, w2), tr) =>
                (Ok a, set_dbs <[db := s2]> w2,
                 Begin db :: Migrate auto :: tr ++ [Commit db])
            | (Raise e, (_, w2), tr) =>
                (Raise e, w2, Begin db :: Migrate auto :: tr ++ [Rollback db])
            end
        end
    end.
Proof.
  intros Hdb. unfold Cli.ots_filestore, Cli._get_database. rewrite Hdb.
  rewrite bind_run. simpl. unfold Cli.db_transaction, Cli.timesheet_storage.
  fold (configured_auto_migrate obj).
  destruct (w_dbs w !! db) as [s|]; [|done].
  rewrite bind_run. unfold Cli.migrate.
  destruct (check_and_migrate s (configured_auto_migrate obj)) as [s1|e]; [|done].
  destruct (body (s1, w)) as [[[a|e] [s2 w2]] tr]; done.
Qed.

Lemma ots_filestore_no_db {A} obj (body : M (S * world S X) A) w :
  obj_db obj = None →
  Cli.ots_filestore obj body w =
    (Raise (ClickException "Something went wrong, unable to find database."), w, []).
Proof.
  intros Hdb. unfold Cli.ots_filestore, Cli._get_database. by rewrite Hdb.
Qed.

Lemma ots_filestore_configs {A} obj (body : M (S * world S X) A) w r w' tr :
  inner body → Cli.ots_filestore obj body w = (r, w', tr) →
  w_configs w' = w_configs w.
Proof.
  intros Hbody.
  destruct (obj_db obj) as [db|] eqn:Hdb.
  - rewrite (ots_filestore_run _ db) by done. simpl.
    destruct (w_dbs w !! db) as [s|]; [|by intros [= <- <- <-]].
    destruct (check_and_migrate s (configured_auto_migrate obj)) as [s1|e];
      [|by intros [= <- <- <-]].
    destruct (body (s1, w)) as [[[a|e] [s2 w2]] tr0] eqn:Hrun;
      apply Hbody in Hrun as (_ & Hc & _); by intros [= <- <- <-].
  - rewrite ots_filestore_no_db by done. by intros [= <- <- <-].
Qed.

Lemma ask_run ev dflt (w : world S X) v rest :
  read_reply dflt (w_stdin w) = Some (v, rest) →
  ask ev dflt w = (Ok v, set_stdin rest w, [ev]).
Proof. intros Hread. unfold ask. by rewrite Hread. Qed.

Lemma disciplined_quiet {A} auto (m : M (world S X) A) :
  quiet m → disciplined auto m.
Proof.
  intros Hm w r w' tr Hrun. apply Hm in Hrun as (Hd & _ & Ht).
  split; [by apply tx_run_io | done].
Qed.

Lemma disciplined_bind {A B} auto (m : M (world S X) A) (k : A → M (world S X) B) :
  quiet m → (∀ a, disciplined auto (k a)) → disciplined auto (m ≫= k).
Proof.
  intros Hm Hk w r w' tr Hrun.
  apply bind_inv in Hrun as [(a & w1 & tr1 & tr2 & H1 & H2 & ->) | (e & H1 & ->)].
  - apply Hm in H1 as (Hd1 & _ & Ht1). apply Hk in H2 as (Hp & Hd2).
    split.
    + unfold tx_protocol. by rewrite tx_run_io_app.
    + intros e He. rewrite <- Hd1. eauto.
  - apply Hm in H1 as (Hd1 & _ & Ht1). split; [by apply tx_run_io | done].
Qed.

Lemma disciplined_ots_filestore {A} obj (body : M (S * world S X) A) :
  inner body → disciplined (configured_auto_migrate obj) (Cli.ots_filestore obj body).
Proof.
  intros Hbody w r w' tr.
  destruct (obj_db obj) as [db|] eqn:Hdb.
  - rewrite (ots_filestore_run _ db) by done. simpl.
    destruct (w_dbs w !! db) as [s|].
    + destruct (check_and_migrate s (configured_auto_migrate obj)) as [s1|e].
      * destruct (body (s1, w)) as [[[a|e] [s2 w2]] tr0] eqn:Hrun.
        -- apply Hbody in Hrun as (Hd & _ & Ht). intros [= <- <- <-]. split; [|done].
           unfold tx_protocol. simpl. rewrite bool_decide_eq_true_2 by done. simpl.
           by rewrite (tx_run_inner_end _ db) by auto.
        -- apply Hbody in Hrun as (Hd & _ & Ht). intros [= <- <- <-]. split.
           ++ unfold tx_protocol. simpl. rewrite bool_decide_eq_true_2 by done.
              simpl. by rewrite (tx_run_inner_end _ db) by auto.
           ++ done.
      * intros [= <- <- <-]. split; [|done].
        unfold tx_protocol. simpl. by rewrite !bool_decide_eq_true_2.
    + intros [= <- <- <-]. split; [|done].
      unfold tx_protocol. simpl. by rewrite !bool_decide_eq_true_2.
  - rewrite ots_filestore_no_db by done. by intros [= <- <- <-].
Qed.
End CliFacts.

(** ** Every command keeps the discipline *)

Section Discipline.
Context {S X : Type} {backend : Backend S X}.

Create HintDb cli discriminated.
Hint Resolve quiet_ret quiet_raise quiet_gets quiet_today quiet_echo quiet_help
  quiet_confirm quiet_prompt quiet_save_config quiet_config_dir
  inner_ret inner_ts_call inner_echo : cli.

(** Take a command apart along its binds. *)
Ltac pieces :=
  repeat first
    [ progress auto with cli
    | apply disciplined_ots_filestore
    | apply disciplined_bind; [|intros ?]
    | apply quiet_bind; [|intros ?]
    | apply inner_bind; [|intros ?]
    | apply inner_for_each; intros ? ].

Lemma dict_update_other (cfg : config) (items : kwargs) key dflt :
  Forall (λ kv, kv.1 ≠ key) items →
  dict_get (dict_update cfg items) key dflt = dict_get cfg key dflt.
Proof.
  unfold dict_get, dict_update. intros Hkey. revert cfg.
  induction Hkey as [|[k v] items Hne _ IH]; intros cfg; [done|].
  simpl in *. rewrite IH. by rewrite lookup_insert_ne.
Qed.

Lemma disciplined_add obj task_code duration description task_id project_id date :
  disciplined (configured_auto_migrate obj)
    (Cli.add obj task_code duration description task_id project_id date).
Proof. unfold Cli.add. destruct date; pieces. Qed.

Lemma disciplined_edit obj index description duration code task_id project_id :
  disciplined (configured_auto_migrate obj)
    (Cli.edit obj index description duration code task_id project_id).
Proof.
  unfold Cli.edit. pieces.
  match goal with |- inner (if ?b then _ else _) => destruct b end; pieces.
Qed.

Lemma disciplined_drop obj index force :
  disciplined (configured_auto_migrate obj) (Cli.drop obj index force).
Proof.
  unfold Cli.drop. apply disciplined_bind.
  - destruct force; pieces.
    match goal with |- quiet (if ?b then _ else _) => destruct b end; pieces.
  - intros [|]; pieces. by apply disciplined_quiet, quiet_ret.
Qed.

Lemma disciplined_alias_list obj details :
  disciplined (configured_auto_migrate obj) (Cli.alias_list obj details).
Proof. unfold Cli.alias_list. pieces. Qed.

Lemma disciplined_alias_update obj name update_all :
  disciplined (configured_auto_migrate obj) (Cli.alias_update obj name update_all).
Proof.
  unfold Cli.alias_update.
  destruct (negb (truthy (of_str name)) && negb update_all).
  - apply disciplined_quiet, quiet_help.
  - destruct (truthy (of_str name) && update_all); pieces.
    apply disciplined_quiet, quiet_raise.
Qed.

Lemma disciplined_push obj index dt force :
  disciplined (configured_auto_migrate obj) (Cli.push obj index dt force).
Proof.
  unfold Cli.push. apply disciplined_bind; [|intros ?; pieces].
  destruct force; pieces.
  - destruct (truthy (of_str index)); [pieces|]. destruct dt; pieces.
  - match goal with |- quiet (if ?b then _ else _) => destruct b end; pieces.
Qed.

Lemma disciplined_list obj days date :
  disciplined (configured_auto_migrate obj) (Cli.list_timesheets obj days date).
Proof.
  unfold Cli.list_timesheets. apply disciplined_bind; [|intros ?; pieces].
  destruct (truthy (of_str date)); [|pieces].
  destruct (parser_parse _); pieces.
Qed.

Lemma disciplined_login obj database :
  disciplined (configured_auto_migrate obj) (Cli.login obj database).
Proof.
  unfold Cli.login.
  do 5 (apply disciplined_bind; [pieces | intros ?]).
  apply disciplined_bind; [pieces | intros ?].
  apply disciplined_bind; [pieces | intros _].
  match goal with
  | |- disciplined _ (Cli.ots_filestore ?obj' _) =>
      replace (configured_auto_migrate obj) with (configured_auto_migrate obj')
  end; [pieces|].
  unfold configured_auto_migrate. cbn [obj_config].
  destruct (obj_config obj) as [cfg|]; [|done]. cbn [fmap option_fmap option_map default].
  apply dict_update_other. by repeat constructor.
Qed.

Lemma disciplined_setup obj advanced :
  disciplined (configured_auto_migrate obj)
    (Cli.setup obj advanced : M (world S X) unit).
Proof.
  unfold Cli.setup. apply disciplined_quiet. pieces.
  destruct advanced; pieces.
  match goal with |- quiet (match ?v with _ => _ end) => destruct v end; pieces.
Qed.

Lemma disciplined_run_command obj c :
  disciplined (configured_auto_migrate obj) (Cli.run_command obj c).
Proof.
  destruct c; simpl;
    try (apply disciplined_bind; [apply quiet_ret | intros _]);
    first
      [ apply disciplined_add | apply disciplined_edit | apply disciplined_drop
      | apply disciplined_alias_list | apply disciplined_alias_update
      | apply disciplined_push | apply disciplined_list | apply disciplined_login
      | apply disciplined_setup
      | unfold Cli.start, Cli.stop, Cli.transfer, Cli.lunch, Cli.resume,
          Cli.alias_add, Cli.alias_delete, Cli.search, Cli.planning, Cli.logout,
          Cli.update; pieces ].
Qed.
End Discipline.

(** ** The commands and the file store *)

Section CommandClaims.
Context {S X : Type} {backend : Backend S X}.

(** A trace written out has no call of a store method. *)
Ltac no_call :=
  let Hin := fresh "Hin" in
  intros ??? Hin; simpl in Hin;
  repeat (destruct Hin as [Hin|Hin]; [discriminate Hin|]); destruct Hin.

(** Membership of an event in a trace written out. *)
Ltac in_trace := simpl; intuition (try discriminate; try congruence).

(** C2.  Every command keeps the discipline of [ots_filestore]: whenever
    it opens the file store, the migration check, with the [auto_migrate]
    flag of the configuration, is the first thing that runs in the
    transaction, the method calls of the command follow it in the same
    transaction, and a command that fails leaves the committed stores as
    they were. *)
Theorem migration_check_in_command_transaction obj c (w : world S X) r w' tr :
  Cli.run_command obj c w = (r, w', tr) →
  tx_protocol (configured_auto_migrate obj) tr = true
  ∧ (∀ e, r = Raise e → w_dbs w' = w_dbs w).
Proof. apply disciplined_run_command. Qed.

(** C3 (the code at the failing input).  With both an index and a date,
    [push] raises nothing of its own: it goes on to the store and calls its
    [push] method with the index and the date. *)
Theorem push_index_and_date_reach_store obj index d (w : world S X) :
  is_Some (store_for obj w) →
  In (Call "push" [VStr index; VDate d] [])
     (Cli.push obj (Some index) (Some d) true w).2.
Proof.
  intros [s Hs]. unfold store_for in Hs.
  destruct (obj_db obj) as [db|] eqn:Hdb; [|done]. simpl in Hs.
  destruct (w_dbs w !! db) as [s0|] eqn:Hs0; [|done]. simpl in Hs.
  unfold Cli.push. rewrite bind_run. simpl.
  rewrite (ots_filestore_run _ db) by done. simpl. rewrite Hs0.
  destruct (check_and_migrate s0 _) as [s1|]; [|done].
  rewrite bind_run. unfold Cli.ts_call.
  destruct (ts_method _ _ _ _ _) as [[[v s2]|e] x]; simpl; auto.
Qed.

(** C4, as amended.  [transfer] calls no method of the store: it leaves
    the committed stores as the migration check of [ots_filestore] leaves
    them, which is as they were when the check changes nothing. *)
Theorem transfer_only_migrates obj duration index_from index_to
    (w : world S X) r w' tr :
  Cli.transfer obj duration index_from index_to w = (r, w', tr) →
  w_dbs w' = after_migration obj w
  ∧ w_ext w' = w_ext w
  ∧ (∀ meth args kw, ¬ In (Call meth args kw) tr)
  ∧ (∀ db s, obj_db obj = Some db → w_dbs w !! db = Some s →
       check_and_migrate s (configured_auto_migrate obj) = Ok s →
       w_dbs w' = w_dbs w).
Proof.
  unfold Cli.transfer, after_migration, store_for.
  destruct (obj_db obj) as [db|] eqn:Hdb.
  - rewrite (ots_filestore_run _ db) by done. simpl.
    destruct (w_dbs w !! db) as [s|] eqn:Hs; simpl.
    + destruct (check_and_migrate s _) as [s1|e] eqn:Hmig; intros [= <- <- <-];
        (split_and!; [done | done | by no_call |]).
      * intros db' s' [= <-]. rewrite Hs. intros [= <-]. rewrite Hmig.
        intros [= <-]. by apply insert_id.
      * done.
    + intros [= <- <- <-]. split_and!; [done | done | by no_call | done].
  - rewrite ots_filestore_no_db by done. intros [= <- <- <-].
    split_and!; [done | done | by no_call | done].
Qed.

(** C5.  [edit] prints "Timesheet updated." exactly when the
    [edit_timesheet] method of the store returns a true value, and
    "Nothing to update." exactly when it returns a false one. *)
Theorem edit_reports_what_the_store_returns obj index description duration
    code task_id project_id (w : world S X) r w' tr :
  Cli.edit obj index description duration code task_id project_id w = (r, w', tr) →
  let outcome :=
    returned "edit_timesheet" [VStr index]
      [("description", of_str description); ("duration", of_str duration);
       ("task_code", of_str code); ("task_id", of_int task_id);
       ("project_id", of_int project_id)] obj w in
  (In (Echo "Timesheet updated.") tr ↔ truthy <$> outcome = Some true)
  ∧ (In (Echo "Nothing to update.") tr ↔ truthy <$> outcome = Some false).
Proof.
  unfold Cli.edit, returned, store_for.
  destruct (obj_db obj) as [db|] eqn:Hdb.
  - rewrite (ots_filestore_run _ db) by done. simpl.
    destruct (w_dbs w !! db) as [s|]; simpl;
      [|intros [= <- <- <-]; in_trace].
    destruct (check_and_migrate s _) as [s1|e]; simpl;
      [|intros [= <- <- <-]; in_trace].
    rewrite bind_run. unfold Cli.ts_call.
    destruct (ts_method _ _ _ _ _) as [[[v s2]|e] x]; simpl;
      [|intros [= <- <- <-]; in_trace].
    destruct (truthy v); simpl; intros [= <- <- <-]; in_trace.
  - rewrite ots_filestore_no_db by done. intros [= <- <- <-]. simpl. in_trace.
Qed.

(** C6.  Without [--force], [drop] and [push] ask for a confirmation
    before anything else; when the answer is no, neither opens the file
    store or calls a method of the store: [drop] says so and ends, [push]
    aborts, and the world is as before but for the input that was read. *)
Theorem declined_drop_and_push_do_nothing obj index pushed dt (w : world S X) :
  let dropping := Cli.drop obj index false w in
  let pushing := Cli.push obj pushed dt false w in
  head dropping.2 = Some (AskConfirm "Confirm dropping timesheet" (VBool false))
  ∧ (∃ text, head pushing.2 = Some (AskConfirm text (VBool false)))
  ∧ (∀ v rest,
       read_reply (VBool false) (w_stdin w) = Some (v, rest) → truthy v = false →
       dropping =
         (Ok tt, set_stdin rest w,
          [AskConfirm "Confirm dropping timesheet" (VBool false);
           Echo "Timesheet drop aborted."])
       ∧ ∃ text,
           pushing = (Raise Abort, set_stdin rest w, [AskConfirm text (VBool false)])).
Proof.
  cbn zeta. split_and!.
  - unfold Cli.drop, click_confirm, ask, mbind, M_bind. cbn beta.
    destruct (read_reply _ _) as [[v rest]|]; [|done].
    destruct (truthy v); cbn; [|done].
    by destruct (Cli.ots_filestore _ _ _) as [[[]]].
  - unfold Cli.push, click_confirm, ask, mbind, M_bind. cbn beta zeta.
    destruct (truthy (of_str pushed)); [|destruct dt]; cbn;
      (destruct (read_reply _ _) as [[v rest]|]; [|by eexists]);
      (destruct (truthy v); cbn; [|by eexists]);
      destruct (Cli.ots_filestore _ _ _) as [[[]]]; by eexists.
  - intros v rest Hread Hv. split.
    + unfold Cli.drop, click_confirm, ask, mbind, M_bind. cbn beta.
      rewrite Hread, Hv. done.
    + unfold Cli.push, click_confirm, ask, mbind, M_bind. cbn beta zeta.
      destruct (truthy (of_str pushed)); [|destruct dt]; cbn;
        rewrite Hread, Hv; by eexists.
Qed.

(** C7.  [alias update] with both a name and [--all] raises a usage error
    and with neither prints the help, in both cases without touching the
    file store; with exactly one of them it enters the file store to call
    [update_alias] with the name ([None] for all), and the call is made
    when the store object is reached. *)
Theorem alias_update_needs_name_or_all obj name update_all (w : world S X) :
  let run := Cli.alias_update obj name update_all w in
  match truthy (of_str name), update_all with
  | true, true =>
      run = (Raise (UsageError "If 'all' flag is given, name should be omitted."),
             w, [])
  | false, false => run = (Ok tt, w, [EchoHelp])
  | _, _ =>
      run = Cli.ots_filestore obj
              (Cli.ts_call "update_alias" [of_str name] [];; mret tt) w
      ∧ (is_Some (store_for obj w) →
         In (Call "update_alias" [of_str name] []) run.2)
  end.
Proof.
  assert (Hcall : is_Some (store_for obj w) →
    In (Call "update_alias" [of_str name] [])
       (Cli.ots_filestore obj
          (Cli.ts_call "update_alias" [of_str name] [];; mret tt) w).2).
  { intros [s Hs]. unfold store_for in Hs.
    destruct (obj_db obj) as [db|] eqn:Hdb; [|done]. simpl in Hs.
    destruct (w_dbs w !! db) as [s0|] eqn:Hs0; [|done]. simpl in Hs.
    rewrite (ots_filestore_run _ db) by done. simpl. rewrite Hs0.
    destruct (check_and_migrate s0 _) as [s1|]; [|done].
    rewrite bind_run. unfold Cli.ts_call.
    destruct (ts_method _ _ _ _ _) as [[[v s2]|e] x]; simpl; auto. }
  unfold Cli.alias_update.
  destruct (truthy (of_str name)), update_all; simpl; auto.
Qed.

(** C9.  When the configuration file is absent, or has no ['auto_migrate']
    key, every migration check of a run of the program is called with
    [auto_migrate=True]. *)
Theorem auto_migrate_is_true_by_default config_dir c (w : world S X) r w' tr :
  (w_configs w !! config_dir = None
   ∨ ∃ cfg, w_configs w !! config_dir = Some cfg ∧ cfg !! "auto_migrate" = None) →
  Cli.main config_dir c w = (r, w', tr) →
  ∀ a, In (Migrate a) tr → a = VBool true.
Proof.
  intros Hcfg Hrun a Hin.
  assert (Hauto : dict_get (default ∅ (w_configs w !! config_dir))
                    "auto_migrate" (VBool true) = VBool true).
  { unfold dict_get. destruct Hcfg as [-> | (cfg & -> & Hkey)]; simpl.
    - done.
    - by rewrite Hkey. }
  unfold Cli.main, Cli.cli, Cli._do_setup, Cli._load_config in Hrun.
  rewrite !bind_run in Hrun. simpl in Hrun.
  destruct (dict_get (default ∅ (w_configs w !! config_dir)) "filestore" _)
    as [| | |name| |]; simpl in Hrun;
    try (injection Hrun as <- <- <-; by destruct Hin).
  unfold Cli.db_transaction in Hrun. simpl in Hrun.
  destruct (Cli.run_command _ c _) as [[r1 w1] tr1] eqn:Hcmd.
  injection Hrun as <- <- <-.
  apply disciplined_run_command in Hcmd as [Hp _].
  unfold configured_auto_migrate in Hp. simpl in Hp. rewrite Hauto in Hp.
  destruct Hin as [|[|Hin]]; [done | done |].
  by apply (tx_run_migrate _ _ _ _ Hp).
Qed.

(** C10.  [login] writes the host name, the user name, the SSL flag, the
    port and the database it was given into the configuration file before
    it opens the file store for the login, and the file keeps them however
    the login ends. *)
Theorem login_saves_configuration_first obj database dir (w : world S X)
    hostname username ssl port password in1 in2 in3 in4 in5 r w' tr :
  let cfg := default ∅ (obj_config obj) in
  obj_config_dir obj = Some dir →
  read_reply (dict_get cfg "odoo_hostname" VNone) (w_stdin w) = Some (hostname, in1) →
  read_reply (dict_get cfg "odoo_login" VNone) in1 = Some (username, in2) →
  read_reply (dict_get cfg "ssl" (VBool true)) in2 = Some (ssl, in3) →
  read_reply (if truthy ssl then VStr "443" else VStr "80") in3 = Some (port, in4) →
  read_reply VNone in4 = Some (password, in5) →
  Cli.login obj database w = (r, w', tr) →
  w_configs w' !! dir =
    Some (dict_update cfg
            [("odoo_hostname", hostname); ("odoo_login", username); ("ssl", ssl);
             ("odoo_port", port); ("odoo_db", of_str database)])
  ∧ ∃ asked rest,
      tr = asked ++ Echo "Configuration saved" :: rest
      ∧ forallb is_io asked = true
      ∧ ∀ meth args kw, In (Call meth args kw) tr → In (Call meth args kw) rest.
Proof.
  intros cfg Hdir H1 H2 H3 H4 H5.
  unfold Cli.login, click_prompt, click_confirm, ask, Cli.obj_getitem_config_dir,
    Cli._save_config, Cli.ensure_path, modify, echo, emit, raise, mbind, M_bind,
    mret, M_ret.
  cbn beta zeta. fold cfg.
  rewrite H1. cbn [w_stdin set_stdin].
  rewrite H2. cbn [w_stdin set_stdin].
  rewrite H3. cbn [w_stdin set_stdin].
  rewrite H4. cbn [w_stdin set_stdin].
  rewrite H5. cbn [obj_config_dir]. rewrite Hdir.
  match goal with
  | |- context [Cli.ots_filestore ?o ?b ?w0] =>
      destruct (Cli.ots_filestore o b w0) as [[r1 w1] tr1] eqn:Hstore
  end.
  apply ots_filestore_configs in Hstore;
    [|apply inner_bind; [apply inner_ts_call | intros ?; apply inner_echo]].
  intros [= <- <- <-]. split.
  - rewrite Hstore. cbn [w_configs set_configs set_dirs set_stdin].
    by rewrite lookup_insert_eq.
  - eexists [_; _; _; _; _], tr1. split_and!; [done | done |].
    intros meth args kw Hin. cbn in Hin.
    repeat (destruct Hin as [Hin|Hin]; [discriminate Hin|]). done.
Qed.
End CommandClaims.

(** ** The running entry of the store *)

Section StoreFacts.
Import Store.

Lemma lookup_update_entry ds r f r' :
  lookup_entry (update_entry r f ds) r' =
    if decide (r' = r) then f <$> lookup_entry ds r' else lookup_entry ds r'.
Proof.
  unfold lookup_entry, update_entry. destruct r as [d p], r' as [d' p']. simpl.
  rewrite lookup_alter. destruct (decide (d = d')) as [<-|Hd].
  - destruct (ds !! d) as [log|]; simpl; [|by case_decide].
    rewrite list_lookup_alter. destruct (decide (p = p')) as [<-|Hp].
    + rewrite decide_True by done. by destruct (log !! p) as [[e|]|].
    + rewrite decide_False by congruence. done.
  - rewrite decide_False by congruence. done.
Qed.

Lemma lookup_bury_entry ds r r' :
  lookup_entry (bury_entry r ds) r' =
    if decide (r' = r) then None else lookup_entry ds r'.
Proof.
  unfold lookup_entry, bury_entry. destruct r as [d p], r' as [d' p']. simpl.
  rewrite lookup_alter. destruct (decide (d = d')) as [<-|Hd].
  - destruct (ds !! d) as [log|]; simpl; [|by case_decide].
    rewrite list_lookup_alter. destruct (decide (p = p')) as [<-|Hp].
    + rewrite decide_True by done. by destruct (log !! p) as [[e|]|].
    + rewrite decide_False by congruence. done.
  - rewrite decide_False by congruence. done.
Qed.

Lemma lookup_append_entry ds d e r' :
  lookup_entry (append_entry d e ds) r' =
    if decide (r' = (d, next_position d ds)) then Some e else lookup_entry ds r'.
Proof.
  unfold lookup_entry, append_entry, next_position. destruct r' as [d' p']. simpl.
  rewrite lookup_insert. destruct (decide (d = d')) as [<-|Hd]; simpl.
  - destruct (decide (p' = length (default [] (ds !! d)))) as [->|Hp].
    + rewrite decide_True by done. by rewrite list_lookup_middle.
    + rewrite decide_False by congruence.
      destruct (ds !! d) as [log|]; simpl in *.
      * destruct (decide (p' < length log)%nat).
        -- by rewrite lookup_app_l.
        -- rewrite lookup_app_r by lia.
           rewrite (lookup_ge_None_2 log) by lia. simpl.
           destruct (p' - length log)%nat eqn:?; [lia | done].
      * destruct p'; [done | done].
  - rewrite decide_False by congruence. done.
Qed.

(** **** The state machine keeps the pointer right *)

Lemma pointer_invariant_empty version : pointer_invariant (empty version).
Proof. intros r e. unfold entry_at, lookup_entry. simpl. by rewrite lookup_empty. Qed.

Lemma all_stopped_close now st :
  pointer_invariant st → all_stopped (close_running now st).
Proof.
  intros Hinv r e. unfold close_running.
  destruct (running st) as [r0|] eqn:Hrun.
  - unfold entry_at. simpl. rewrite lookup_update_entry.
    case_decide as Hr.
    + destruct (lookup_entry (days st) r) as [e0|]; [|done].
      by intros [= <-].
    + intros He. destruct (e_running e) eqn:Hon; [|done].
      specialize (Hinv r e He Hon). congruence.
  - intros He. destruct (e_running e) eqn:Hon; [|done].
    specialize (Hinv r e He Hon). congruence.
Qed.

Lemma pointer_invariant_stopped st :
  all_stopped st → pointer_invariant st.
Proof. intros Hst r e He Hon. rewrite (Hst r e He) in Hon. done. Qed.

Lemma pointer_invariant_open now r st :
  all_stopped st → pointer_invariant (open_entry now r st).
Proof.
  intros Hst r' e. unfold entry_at, open_entry. simpl.
  rewrite lookup_update_entry. case_decide as Hr; [by subst|].
  intros He Hon. rewrite (Hst r' e He) in Hon. done.
Qed.

Lemma pointer_invariant_add_and_start sp now today st :
  pointer_invariant st → pointer_invariant (add_and_start sp now today st).
Proof.
  intros Hinv r e. apply (all_stopped_close now) in Hinv.
  unfold add_and_start, entry_at. simpl. rewrite lookup_append_entry.
  case_decide as Hr; [by subst|].
  intros He Hon. rewrite (Hinv r e He) in Hon. done.
Qed.

Lemma pointer_invariant_resume index now today st st' :
  pointer_invariant st → resume index now today st = Ok st' →
  pointer_invariant st'.
Proof.
  intros Hinv. unfold resume. destruct index as [token|].
  - destruct (resolve token today st) as [r|]; [|done].
    intros [= <-]. by apply pointer_invariant_open, all_stopped_close.
  - destruct (previous st) as [|r rest]; [done|].
    destruct (entry_at st r); [|done].
    intros [= <-]. by apply pointer_invariant_open, all_stopped_close.
Qed.

Lemma pointer_invariant_add_timesheet sp d duration st st' :
  pointer_invariant st → add_timesheet sp d duration st = Ok st' →
  pointer_invariant st'.
Proof.
  intros Hinv. unfold add_timesheet.
  destruct (from_option parse_duration (Some 0) duration) as [minutes|]; [|done].
  intros [= <-] r e. unfold entry_at. simpl. rewrite lookup_append_entry.
  case_decide as Hr; [by intros [= <-]|]. apply Hinv.
Qed.

Lemma edit_entry_running fs dl e : e_running (edit_entry fs dl e) = e_running e.
Proof. done. Qed.

Lemma pointer_invariant_update r f st :
  (∀ e, e_running (f e) = e_running e) →
  pointer_invariant st →
  pointer_invariant
    (mkStore (update_entry r f (days st)) (aliases st) (running st)
       (previous st) (schema_version st)).
Proof.
  intros Hf Hinv r' e. unfold entry_at. simpl. rewrite lookup_update_entry.
  case_decide as Hr; [|apply Hinv]. subst r'.
  destruct (lookup_entry (days st) r) as [e0|] eqn:He0; [|done].
  intros [= <-]. rewrite Hf. by apply Hinv.
Qed.

Lemma pointer_invariant_edit index fs today st changed st' :
  pointer_invariant st → edit index fs today st = Ok (changed, st') →
  pointer_invariant st'.
Proof.
  intros Hinv. unfold edit.
  destruct (resolve index today st) as [r|]; [|done].
  destruct (f_duration fs) as [text|].
  - destruct (parse_delta text) as [dl|]; [|done].
    intros [= _ <-]. by apply pointer_invariant_update.
  - intros [= _ <-]. by apply pointer_invariant_update.
Qed.

Lemma pointer_invariant_drop index today st st' :
  pointer_invariant st → drop index today st = Ok st' → pointer_invariant st'.
Proof.
  intros Hinv. unfold drop.
  destruct (resolve index today st) as [r|]; [|done].
  intros [= <-] r' e. unfold entry_at. simpl. rewrite lookup_bury_entry.
  case_decide; [done|]. apply Hinv.
Qed.

Lemma pointer_invariant_apply o now today st v st' :
  pointer_invariant st → apply o now today st = Ok (v, st') →
  pointer_invariant st'.
Proof.
  intros Hinv. destruct o; simpl.
  - intros [= _ <-]. by apply pointer_invariant_add_and_start.
  - intros [= _ <-]. by apply pointer_invariant_stopped, all_stopped_close.
  - destruct (resume _ _ _ _) eqn:Hop; [|done].
    intros [= _ <-]. eauto using pointer_invariant_resume.
  - destruct (add_timesheet _ _ _ _) eqn:Hop; [|done].
    intros [= _ <-]. eauto using pointer_invariant_add_timesheet.
  - destruct (edit _ _ _ _) as [[changed st1]|] eqn:Hop; [|done].
    intros [= _ <-]. eauto using pointer_invariant_edit.
  - destruct (drop _ _ _) eqn:Hop; [|done].
    intros [= _ <-]. eauto using pointer_invariant_drop.
  - unfold add_alias. destruct a as [[?|] [?|] [?|] [?|]]; try done;
      by intros [= _ <-].
  - by intros [= _ <-].
Qed.

Lemma pointer_invariant_step st c :
  pointer_invariant st → pointer_invariant (step st c).
Proof.
  intros Hinv. unfold step.
  destruct (apply _ _ _ _) as [[v st']|] eqn:Hop; [|done].
  eauto using pointer_invariant_apply.
Qed.

Lemma pointer_invariant_run steps st :
  pointer_invariant st → pointer_invariant (run steps st).
Proof.
  unfold run. revert st.
  induction steps as [|c steps IH]; intros st Hinv; [done|].
  simpl. by apply IH, pointer_invariant_step.
Qed.

Lemma pointer_invariant_one st : pointer_invariant st → at_most_one_running st.
Proof.
  intros Hinv r1 r2 e1 e2 H1 H2 Hon1 Hon2.
  pose proof (Hinv r1 e1 H1 Hon1). pose proof (Hinv r2 e2 H2 Hon2). congruence.
Qed.

(** C1.  Whatever operations are run on a new store, at whatever times
    (starting an entry as the [start] and [lunch] commands do, stopping,
    resuming, adding, editing, dropping, and changing the aliases), the
    store reached never holds two entries that are marked running. *)
Theorem at_most_one_running_entry version steps :
  at_most_one_running (run steps (empty version)).
Proof.
  apply pointer_invariant_one, pointer_invariant_run, pointer_invariant_empty.
Qed.
End StoreFacts.

(** ** The commands on the store of the design document *)

Section SpecStoreClaims.
Context {R : Type}.
Variable upgraders : list (Store.t → Store.t).
Variable other :
  string → list pyval → kwargs → Store.t → Store.env R
  → result (pyval * Store.t) * Store.env R.
Variable parse : string → result date.

Let documented : Backend Store.t (Store.env R) := spec_backend upgraders other parse.

Lemma decode_lunch :
  Store.decode "add_and_start_timesheet" []
    [("description", VStr "Lunch"); ("is_worktime", VBool false)] =
  Some (Ok (Store.AddAndStart (Store.mkSpec None (Some "Lunch") None None false))).
Proof. reflexivity. Qed.

(** C8.  On a store that passes the migration check, [lunch] calls
    [add_and_start_timesheet] with the description "Lunch" and
    [is_worktime=False], and the store it commits has a running entry with
    that description that is not work time. *)
Theorem lunch_starts_an_entry_off_work obj db
    (w : world Store.t (Store.env R)) st :
  obj_db obj = Some db →
  store_for (backend := documented) obj w = Some st →
  let run := Cli.lunch (backend := documented) obj w in
  run.1.1 = Ok tt
  ∧ In (Call "add_and_start_timesheet" []
          [("description", VStr "Lunch"); ("is_worktime", VBool false)]) run.2
  ∧ ∃ st' r e,
      w_dbs run.1.2 !! db = Some st'
      ∧ Store.running st' = Some r
      ∧ Store.entry_at st' r = Some e
      ∧ Store.e_description e = Some "Lunch"
      ∧ Store.e_is_worktime e = false
      ∧ Store.e_running e = true.
Proof.
  intros Hdb Hst. unfold store_for in Hst. rewrite Hdb in Hst. simpl in Hst.
  destruct (w_dbs w !! db) as [st0|] eqn:Hst0; [|done]. simpl in Hst.
  destruct (Store.check_and_migrate upgraders st0 _) as [st1|] eqn:Hmig; [|done].
  injection Hst as ->.
  cbn zeta. unfold Cli.lunch.
  rewrite (ots_filestore_run _ db) by done. cbn zeta. rewrite Hst0.
  cbn [check_and_migrate documented spec_backend]. rewrite Hmig.
  rewrite bind_run. unfold Cli.ts_call.
  cbn [ts_method documented spec_backend]. unfold Store.method.
  rewrite decode_lunch. cbn [Store.apply].
  cbn [mret M_ret fst snd app].
  split_and!; [done | cbn; auto |].
  eexists _, _, _. split_and!.
  - cbn [w_dbs set_dbs set_ext]. apply lookup_insert_eq.
  - reflexivity.
  - unfold Store.add_and_start, Store.entry_at. cbn [Store.days].
    rewrite lookup_append_entry. by rewrite decide_True.
  - unfold Store.expand_alias. reflexivity.
  - reflexivity.
  - reflexivity.
Qed.
End SpecStoreClaims.

(** ** Runs on the machine without Odoo *)

(** C4, as stated, fails: on a store written by the previous version of
    the program, with automatic migration (the default), [transfer] leaves
    the store migrated, not as it was. *)
Lemma transfer_migrates_an_old_store :
  let w := holding old_store [] in
  w_dbs (Cli.transfer (backend := offline_upgraded) home_obj "0:30" "0" "1" w).1.2
  ≠ w_dbs w.
Proof.
  cbn zeta. intros Heq.
  apply (f_equal (λ dbs, Store.schema_version <$> dbs !! home_db)) in Heq.
  vm_compute in Heq. discriminate Heq.
Qed.

(** An edit of an entry that does not exist fails inside its transaction:
    the migration check has run first, and the store is as it was. *)
Lemma failed_edit_is_discarded :
  let w := holding old_store [] in
  let run :=
    Cli.run_command (backend := offline) home_obj
      (CmdEdit "7" None (Some "+00:30") None None None) w in
  tx_protocol (VBool true) run.2 = true ∧ w_dbs run.1.2 = w_dbs w.
Proof.
  cbn zeta.
  destruct (migration_check_in_command_transaction (backend := offline) home_obj
              (CmdEdit "7" None (Some "+00:30") None None None)
              (holding old_store []) _ _ _ eq_refl) as [Hp Hd].
  split; [exact Hp | exact (Hd _ eq_refl)].
Defined.

(** [ots push 0 --date 2024-03-01 -f] reaches the [push] method of the
    store. *)
Lemma push_of_index_and_date_offline :
  In (Call "push" [VStr "0"; VDate day] [])
     (Cli.push (backend := offline) home_obj (Some "0") (Some day) true
        (holding old_store [])).2.
Proof.
  apply (push_index_and_date_reach_store (backend := offline)).
  exists old_store. vm_compute. reflexivity.
Defined.

(** On a store of the current version, [transfer] changes nothing. *)
Lemma transfer_keeps_a_current_store :
  let w := holding old_store [] in
  w_dbs (Cli.transfer (backend := offline) home_obj "0:30" "0" "1" w).1.2 = w_dbs w.
Proof.
  cbn zeta.
  destruct (transfer_only_migrates (backend := offline) home_obj "0:30" "0" "1"
              (holding old_store []) _ _ _ eq_refl) as (_ & _ & _ & Hsame).
  exact (Hsame home_db old_store eq_refl eq_refl eq_refl).
Defined.

(** Half an hour more on the first entry of the day: the store reports a
    change, and so does the command. *)
Lemma edit_of_a_duration_is_reported :
  In (Echo "Timesheet updated.")
     (Cli.edit (backend := offline) home_obj "0" None (Some "+00:30") None None None
        (holding old_store [])).2.
Proof.
  destruct (edit_reports_what_the_store_returns (backend := offline) home_obj "0"
              None (Some "+00:30") None None None (holding old_store [])
              _ _ _ eq_refl) as [[_ Hupdated] _].
  apply Hupdated. vm_compute. reflexivity.
Defined.

(** The user answers no to [ots drop 0]. *)
Lemma drop_declined_offline :
  let w := holding old_store [Answer (VBool false)] in
  Cli.drop (backend := offline) home_obj "0" false w =
    (Ok tt, set_stdin [] w,
     [AskConfirm "Confirm dropping timesheet" (VBool false);
      Echo "Timesheet drop aborted."]).
Proof.
  cbn zeta.
  destruct (declined_drop_and_push_do_nothing (backend := offline) home_obj "0"
              None None (holding old_store [Answer (VBool false)]))
    as (_ & _ & Hno).
  destruct (Hno (VBool false) [] eq_refl eq_refl) as [Hdrop _]. exact Hdrop.
Defined.

(** [ots alias update emails] calls [update_alias("emails")]. *)
Lemma alias_update_of_a_name_offline :
  In (Call "update_alias" [VStr "emails"] [])
     (Cli.alias_update (backend := offline) home_obj (Some "emails") false
        (holding old_store [])).2.
Proof.
  destruct (alias_update_needs_name_or_all (backend := offline) home_obj
              (Some "emails") false (holding old_store [])) as [_ Hcall].
  apply Hcall. exists old_store. vm_compute. reflexivity.
Defined.

(** A first run of [ots stop], without a configuration file: the migration
    check is called, with [auto_migrate=True]. *)
Lemma first_run_migrates_automatically :
  let run := Cli.main (backend := offline) home CmdStop (fresh []) in
  In (Migrate (VBool true)) run.2 ∧ ∀ a, In (Migrate a) run.2 → a = VBool true.
Proof.
  cbn zeta. split.
  - vm_compute. auto 10.
  - exact (auto_migrate_is_true_by_default (backend := offline) home CmdStop
             (fresh []) _ _ _ (or_introl eq_refl) eq_refl).
Defined.

(** A login while Odoo cannot be reached: the login fails, and the
    configuration file has the answers. *)
Lemma failed_login_leaves_configuration :
  let w :=
    holding old_store
      [Answer (VStr "mycompany.odoo.com"); Answer (VStr "me"); Enter; Enter;
       Answer (VStr "secret")] in
  let run := Cli.login (backend := offline) home_obj (Some "prod") w in
  run.1.1 = Raise (Error "NetworkError" "login")
  ∧ w_configs run.1.2 !! home =
      Some (dict_update ∅
              [("odoo_hostname", VStr "mycompany.odoo.com"); ("odoo_login", VStr "me");
               ("ssl", VBool true); ("odoo_port", VStr "443");
               ("odoo_db", VStr "prod")]).
Proof.
  cbn zeta. split; [vm_compute; reflexivity|].
  destruct (Cli.login (backend := offline) home_obj (Some "prod") _)
    as [[r w'] tr] eqn:Hrun.
  exact (proj1
    (login_saves_configuration_first (backend := offline) home_obj (Some "prod")
       home
       (holding old_store
          [Answer (VStr "mycompany.odoo.com"); Answer (VStr "me"); Enter; Enter;
           Answer (VStr "secret")])
       (VStr "mycompany.odoo.com") (VStr "me") (VBool true) (VStr "443")
       (VStr "secret")
       [Answer (VStr "me"); Enter; Enter; Answer (VStr "secret")]
       [Enter; Enter; Answer (VStr "secret")]
       [Enter; Answer (VStr "secret")]
       [Answer (VStr "secret")]
       [] r w' tr
       eq_refl eq_refl eq_refl eq_refl eq_refl eq_refl Hrun)).
Defined.

(** [ots lunch] after the two entries of the morning. *)
Lemma lunch_offline :
  ∃ st r e,
    w_dbs (Cli.lunch (backend := offline) home_obj (holding old_store [])).1.2
      !! home_db = Some st
    ∧ Store.running st = Some r
    ∧ Store.entry_at st r = Some e
    ∧ Store.e_description e = Some "Lunch"
    ∧ Store.e_is_worktime e = false
    ∧ Store.e_running e = true.
Proof.
  destruct (lunch_starts_an_entry_off_work [] unreachable parse_iso home_obj
              home_db (holding old_store []) old_store eq_refl eq_refl)
    as (_ & _ & Hentry).
  exact Hentry.
Defined.

(** * More facts about the commands *)

(** ** What a command leaves alone *)

Section FrameFacts.
Context {S X : Type} {backend : Backend S X}.

Lemma preserves_ret {T A} (part : world S X → T) (a : A) : preserves part (mret a).
Proof. by intros w r w' tr [= <- <- <-]. Qed.

Lemma preserves_raise {T A} (part : world S X → T) (e : exn) :
  preserves part (raise e : M (world S X) A).
Proof. by intros w r w' tr [= <- <- <-]. Qed.

Lemma preserves_gets {T A} (part : world S X → T) (f : world S X → A) :
  preserves part (gets f).
Proof. by intros w r w' tr [= <- <- <-]. Qed.

Lemma preserves_emit {T} (part : world S X → T) (ev : event) :
  preserves part (emit ev).
Proof. by intros w r w' tr [= <- <- <-]. Qed.

Lemma preserves_bind {T A B} (part : world S X → T) (m : M (world S X) A)
    (k : A → M (world S X) B) :
  preserves part m → (∀ a, preserves part (k a)) → preserves part (m ≫= k).
Proof.
  intros Hm Hk w r w' tr Hrun.
  apply bind_inv in Hrun as [(a & w1 & tr1 & tr2 & H1 & H2 & ->) | (e & H1 & ->)].
  - apply Hm in H1. apply Hk in H2. congruence.
  - by apply Hm in H1.
Qed.

Lemma preserves_in_ret {T A} (part : world S X → T) (a : A) :
  preserves_in part (mret a : M (S * world S X) A).
Proof. by intros s w r s' w' tr [= <- <- <- <-]. Qed.

Lemma preserves_in_bind {T A B} (part : world S X → T)
    (m : M (S * world S X) A) (k : A → M (S * world S X) B) :
  preserves_in part m → (∀ a, preserves_in part (k a)) →
  preserves_in part (m ≫= k).
Proof.
  intros Hm Hk s w r s' w' tr Hrun.
  apply bind_inv in Hrun
    as [(a & [s1 w1] & tr1 & tr2 & H1 & H2 & ->) | (e & H1 & ->)].
  - apply Hm in H1. apply Hk in H2. congruence.
  - by apply Hm in H1.
Qed.

Lemma preserves_in_ts_call {T} (part : world S X → T) meth args kw :
  apart part → preserves_in part (Cli.ts_call meth args kw).
Proof.
  intros [_ Hext] s w r s' w' tr. unfold Cli.ts_call.
  destruct (ts_method meth args kw s (w_ext w)) as [[[v s1]|e] x];
    intros [= <- <- <- <-]; apply Hext.
Qed.

Lemma preserves_in_echo {T} (part : world S X → T) text :
  preserves_in part (lift_snd (echo text) : M (S * world S X) unit).
Proof. by intros s w r s' w' tr [= <- <- <- <-]. Qed.

Lemma preserves_in_for_each {T A} (part : world S X → T) (xs : list A)
    (body : A → M (S * world S X) unit) :
  (∀ x, preserves_in part (body x)) → preserves_in part (for_each xs body).
Proof.
  intros Hbody. induction xs as [|x xs IH]; simpl.
  - apply preserves_in_ret.
  - apply preserves_in_bind; auto.
Qed.

Lemma preserves_ots_filestore {T A} (part : world S X → T) obj
    (body : M (S * world S X) A) :
  apart part → preserves_in part body → preserves part (Cli.ots_filestore obj body).
Proof.
  intros [Hdbs Hext] Hbody w r w' tr.
  destruct (obj_db obj) as [db|] eqn:Hdb.
  - rewrite (ots_filestore_run _ db) by done. cbn zeta.
    destruct (w_dbs w !! db) as [s|]; [|by intros [= <- <- <-]].
    destruct (check_and_migrate s (configured_auto_migrate obj)) as [s1|e];
      [|by intros [= <- <- <-]].
    destruct (body (s1, w)) as [[[a|e] [s2 w2]] tr0] eqn:Hrun;
      apply Hbody in Hrun; intros [= <- <- <-]; [|done].
    by rewrite Hdbs.
  - rewrite ots_filestore_no_db by done. by intros [= <- <- <-].
Qed.

Lemma apart_configs : apart (w_configs : world S X → _).
Proof. by split. Qed.

Lemma apart_dirs : apart (w_dirs : world S X → _).
Proof. by split. Qed.

Lemma apart_stdin : apart (w_stdin : world S X → _).
Proof. by split. Qed.

(** Questions change the input that is left, and nothing else. *)
Lemma preserves_ask {T} (part : world S X → T) ev dflt :
  (∀ input w, part (set_stdin input w) = part w) → preserves part (ask ev dflt).
Proof.
  intros Hin w r w' tr. unfold ask.
  destruct (read_reply dflt (w_stdin w)) as [[v rest]|];
    intros [= <- <- <-]; apply Hin.
Qed.

Lemma preserves_quiet {A} obj (m : M (world S X) A) :
  quiet m → preserves (other_dbs obj) m.
Proof.
  intros Hm w r w' tr Hrun. apply Hm in Hrun as (Hd & _).
  unfold other_dbs. by rewrite Hd.
Qed.

Lemma other_dbs_ots_filestore {A} obj (body : M (S * world S X) A) :
  inner body → preserves (other_dbs obj) (Cli.ots_filestore obj body).
Proof.
  intros Hbody w r w' tr. unfold other_dbs.
  destruct (obj_db obj) as [db|] eqn:Hdb.
  - rewrite (ots_filestore_run _ db) by done. cbn zeta.
    destruct (w_dbs w !! db) as [s|]; [|by intros [= <- <- <-]].
    destruct (check_and_migrate s (configured_auto_migrate obj)) as [s1|e];
      [|by intros [= <- <- <-]].
    destruct (body (s1, w)) as [[[a|e] [s2 w2]] tr0] eqn:Hrun;
      apply Hbody in Hrun as (Hd & _); intros [= <- <- <-]; cbn.
    + rewrite Hd. apply delete_insert_eq.
    + by rewrite Hd.
  - rewrite ots_filestore_no_db by done. by intros [= <- <- <-].
Qed.
End FrameFacts.

(** Take a quiet computation, or the body of a block, apart. *)
Ltac quiet_step :=
  first
    [ apply quiet_ret | apply quiet_raise | apply quiet_gets | apply quiet_today
    | apply quiet_echo | apply quiet_help | apply quiet_confirm | apply quiet_prompt
    | apply quiet_save_config | apply quiet_config_dir
    | apply quiet_bind; [|intros ?]
    | apply inner_ret | apply inner_ts_call | apply inner_echo
    | apply inner_bind; [|intros ?]
    | apply inner_for_each; intros ?
    | match goal with
      | |- quiet (if ?b then _ else _) => destruct b
      | |- quiet (match ?x with _ => _ end) => destruct x
      | |- inner (if ?b then _ else _) => destruct b
      end ].

(** The same for the file stores a command does not own. *)
Ltac own_store :=
  repeat first
    [ match goal with
      | |- preserves _ (if ?b then _ else _) => destruct b
      | |- preserves _ (match ?x with _ => _ end) => destruct x
      end
    | apply other_dbs_ots_filestore; solve [repeat quiet_step]
    | apply preserves_quiet; solve [repeat quiet_step]
    | apply preserves_bind; [apply preserves_quiet; solve [repeat quiet_step] | intros ?] ].

Section Frame.
Context {S X : Type} {backend : Backend S X}.

Lemma run_command_keeps {T} (part : world S X → T) obj c :
  apart part → (∀ input w, part (set_stdin input w) = part w) →
  saves_config c = false → preserves part (Cli.run_command obj c).
Proof.
  intros Hpart Hin Hc.
  destruct c; try discriminate Hc; cbn [Cli.run_command];
    unfold Cli.add, Cli.start, Cli.stop, Cli.edit, Cli.transfer, Cli.drop,
      Cli.lunch, Cli.resume, Cli.alias, Cli.alias_list, Cli.alias_add,
      Cli.alias_delete, Cli.alias_update, Cli.push, Cli.search,
      Cli.list_timesheets, Cli.planning, Cli.logout, Cli.update, Cli.today,
      click_confirm, echo;
    cbn zeta;
    repeat first
      [ apply preserves_ret | apply preserves_raise | apply preserves_gets
      | apply preserves_emit | apply preserves_ask; exact Hin
      | apply preserves_ots_filestore; [exact Hpart|]
      | apply preserves_in_ret | apply preserves_in_ts_call; exact Hpart
      | apply preserves_in_echo
      | apply preserves_bind; [|intros ?]
      | apply preserves_in_bind; [|intros ?]
      | apply preserves_in_for_each; intros ?
      | match goal with
        | |- preserves _ (if ?b then _ else _) => destruct b
        | |- preserves _ (match ?x with _ => _ end) => destruct x
        | |- preserves_in _ (if ?b then _ else _) => destruct b
        end ].
Qed.

(** X1.  Only [login] and [setup] write the configuration: every other command
    leaves the configuration files and the directories as they were,
    however it ends. *)
Theorem only_login_and_setup_write_the_configuration obj c (w : world S X)
    r w' tr :
  saves_config c = false →
  Cli.run_command obj c w = (r, w', tr) →
  w_configs w' = w_configs w ∧ w_dirs w' = w_dirs w.
Proof.
  intros Hc Hrun. split.
  - by apply (run_command_keeps w_configs obj c apart_configs) in Hrun.
  - by apply (run_command_keeps w_dirs obj c apart_dirs) in Hrun.
Qed.

(** X2.  A command that asks nothing reads nothing: but for [drop] and [push]
    without [--force], [login] and [setup], the terminal input is left as it
    was. *)
Theorem commands_without_a_question_read_no_input obj c (w : world S X)
    r w' tr :
  asks_first c = false →
  Cli.run_command obj c w = (r, w', tr) →
  w_stdin w' = w_stdin w.
Proof.
  intros Hc. revert w r w' tr. fold (preserves w_stdin (Cli.run_command obj c)).
  destruct c as [| | | | |index []| | | | | | | |index dt []| | | | | | |];
    try discriminate Hc; cbn [Cli.run_command];
    unfold Cli.add, Cli.start, Cli.stop, Cli.edit, Cli.transfer, Cli.drop,
      Cli.lunch, Cli.resume, Cli.alias, Cli.alias_list, Cli.alias_add,
      Cli.alias_delete, Cli.alias_update, Cli.push, Cli.search,
      Cli.list_timesheets, Cli.planning, Cli.logout, Cli.update, Cli.today, echo;
    cbn zeta;
    repeat first
      [ apply preserves_ret | apply preserves_raise | apply preserves_gets
      | apply preserves_emit
      | apply preserves_ots_filestore; [exact apart_stdin|]
      | apply preserves_in_ret | apply preserves_in_ts_call; exact apart_stdin
      | apply preserves_in_echo
      | apply preserves_bind; [|intros ?]
      | apply preserves_in_bind; [|intros ?]
      | apply preserves_in_for_each; intros ?
      | match goal with
        | |- preserves _ (if ?b then _ else _) => destruct b
        | |- preserves _ (match ?x with _ => _ end) => destruct x
        | |- preserves_in _ (if ?b then _ else _) => destruct b
        end ].
Qed.

Lemma run_command_own_store obj c :
  preserves (other_dbs obj) (Cli.run_command (S := S) obj c).
Proof.
  destruct c; cbn [Cli.run_command];
    try (unfold Cli.add, Cli.start, Cli.stop, Cli.edit, Cli.transfer, Cli.drop,
           Cli.lunch, Cli.resume, Cli.alias, Cli.alias_list, Cli.alias_add,
           Cli.alias_delete, Cli.alias_update, Cli.push, Cli.search,
           Cli.list_timesheets, Cli.planning, Cli.logout, Cli.update, Cli.setup;
         cbn zeta; by own_store).
  unfold Cli.login. cbn zeta.
  do 7 (apply preserves_bind;
          [apply preserves_quiet; solve [repeat quiet_step] | intros ?]).
  match goal with
  | |- preserves _ (Cli.ots_filestore ?obj' _) =>
      change (other_dbs obj) with (other_dbs (S := S) (X := X) obj')
  end.
  apply other_dbs_ots_filestore; solve [repeat quiet_step].
Qed.

(** X3.  A command writes to no file store but the one of its context: every
    other file store is after the command what it was before. *)
Theorem a_command_writes_its_own_store_only obj c (w : world S X) r w' tr db :
  Cli.run_command obj c w = (r, w', tr) →
  obj_db obj ≠ Some db →
  w_dbs w' !! db = w_dbs w !! db.
Proof.
  intros Hrun Hdb. apply run_command_own_store in Hrun. unfold other_dbs in Hrun.
  destruct (obj_db obj) as [db0|]; [|by rewrite Hrun].
  assert (db0 ≠ db) as Hne by congruence.
  rewrite <- (lookup_delete_ne (w_dbs w') db0 db Hne).
  rewrite <- (lookup_delete_ne (w_dbs w) db0 db Hne). by rewrite Hrun.
Qed.
End Frame.

(** ** The context object, the file store and the configuration file *)

Section Setup.
Context {S X : Type} {backend : Backend S X}.

Lemma ensured (dir : string) (dirs : gset string) :
  dir ∈ (if decide (dir ∈ dirs) then dirs else {[dir]} ∪ dirs).
Proof.
  case_decide; [done|]. apply elem_of_union. left. by apply elem_of_singleton.
Qed.

Lemma quiet_ots_filestore_no_db {A} obj (body : M (S * world S X) A) :
  obj_db obj = None → quiet (Cli.ots_filestore obj body).
Proof.
  intros Hdb w r w' tr. rewrite ots_filestore_no_db by done.
  by intros [= <- <- <-].
Qed.

Lemma quiet_run_command_no_db obj c :
  obj_db obj = None → quiet (Cli.run_command (S := S) (X := X) obj c).
Proof.
  intros Hdb.
  destruct c; cbn [Cli.run_command];
    unfold Cli.add, Cli.start, Cli.stop, Cli.edit, Cli.transfer, Cli.drop,
      Cli.lunch, Cli.resume, Cli.alias, Cli.alias_list, Cli.alias_add,
      Cli.alias_delete, Cli.alias_update, Cli.push, Cli.search,
      Cli.list_timesheets, Cli.planning, Cli.login, Cli.logout, Cli.setup,
      Cli.update;
    cbn zeta;
    repeat first
      [ apply quiet_ots_filestore_no_db; exact Hdb
      | quiet_step ].
Qed.

(** X4.  Without a database in the context object no command opens a file
    store: a command only talks to the terminal, and one that goes straight
    to the file store fails with click's error "unable to find database"
    before anything happens. *)
Theorem without_a_database_no_store_is_opened obj c (w : world S X) r w' tr :
  obj_db obj = None →
  Cli.run_command obj c w = (r, w', tr) →
  forallb is_io tr = true
  ∧ w_dbs w' = w_dbs w
  ∧ (opens_at_once c = true →
     r = Raise (ClickException "Something went wrong, unable to find database.")
     ∧ tr = []).
Proof.
  intros Hdb Hrun. pose proof (quiet_run_command_no_db obj c Hdb _ _ _ _ Hrun)
    as (Hd & _ & Hio).
  split_and!; [done | done |]. intros Hc.
  destruct c; try discriminate Hc; cbn [Cli.run_command] in Hrun;
    unfold Cli.add, Cli.start, Cli.stop, Cli.edit, Cli.transfer, Cli.lunch,
      Cli.resume, Cli.alias, Cli.alias_list, Cli.alias_add, Cli.alias_delete,
      Cli.search, Cli.planning, Cli.logout, Cli.update, Cli.today, gets in Hrun;
    try match type of Hrun with context [match ?d with Some _ => _ | None => _ end] =>
      destruct d end;
    rewrite ?bind_run in Hrun; cbn [mret M_ret] in Hrun;
    rewrite ?bind_run in Hrun; cbn [mret M_ret] in Hrun;
    rewrite ots_filestore_no_db in Hrun by done;
    by injection Hrun as <- <- <-.
Qed.

(** The group callback, step by step. *)
Lemma cli_run config_dir (w : world S X) :
  Cli.cli config_dir w =
    let cfg := default ∅ (w_configs w !! config_dir) in
    let w1 :=
      set_dirs (λ dirs, if decide (config_dir ∈ dirs) then dirs
                        else {[config_dir]} ∪ dirs) w in
    match dict_get cfg "filestore" (VStr Cli.DEFAULT_FILESTORE_FILE_NAME) with
    | VStr name =>
        let db := Cli.path_join config_dir name in
        (Ok (Obj (Some config_dir) (Some db) (Some cfg)),
         set_dbs <[db := default TimesheetFileStore (w_dbs w !! db)]> w1,
         [Begin db; Commit db])
    | _ => (Raise (TypeError "unsupported operand type(s) for /"), w1, [])
    end.
Proof.
  unfold Cli.cli, Cli._do_setup, Cli._load_config, Cli.ensure_path, gets, modify,
    Cli.db_transaction, mbind, M_bind, mret, M_ret, raise.
  cbn beta zeta.
  by destruct (dict_get _ _ _).
Qed.


(** X6.  Running the group callback again changes nothing more. *)
Theorem cli_is_idempotent config_dir (w : world S X) obj w1 tr :
  Cli.cli config_dir w = (Ok obj, w1, tr) →
  Cli.cli config_dir w1 = (Ok obj, w1, tr).
Proof.
  rewrite !cli_run. cbn zeta.
  destruct (dict_get (default ∅ (w_configs w !! config_dir)) "filestore" _)
    as [| | |name| |] eqn:Hname; try discriminate.
  intros [= <- <- <-]. unfold set_dbs, set_dirs.
  cbn [w_configs w_dbs w_dirs w_stdin w_ext].
  rewrite Hname. rewrite lookup_insert_eq. cbn [default].
  rewrite insert_insert_eq.
  by rewrite (decide_True (P := config_dir ∈ _)) by apply ensured.
Qed.

End Setup.

(** ** Questions and answers *)

(** Whether an event is in a trace that is written out. *)
Ltac in_events := simpl; intuition (try discriminate; try congruence).

Section Questions.
Context {S X : Type} {backend : Backend S X}.

(** Unfold the monad down to the questions of a command. *)
Ltac to_questions :=
  unfold Cli.drop, Cli.push, Cli.login, Cli.setup, Cli.today, click_confirm,
    click_prompt, ask, gets, mbind, M_bind, mret, M_ret, raise;
  cbn beta iota zeta.

(** X8.  At the end of the input a command that starts with a question is
    aborted by click: it opens no file store and writes no configuration. *)
Theorem no_input_aborts obj c (w : world S X) r w' tr :
  w_stdin w = [] → asks_first c = true →
  Cli.run_command obj c w = (r, w', tr) →
  r = Raise Abort
  ∧ w_dbs w' = w_dbs w
  ∧ w_configs w' = w_configs w
  ∧ forallb is_io tr = true.
Proof.
  intros Hin Hc.
  destruct c as [| | | | |index []| | | | | | | |index dt []| | | | | | |];
    try discriminate Hc; cbn [Cli.run_command]; to_questions.
  - rewrite Hin. by intros [= <- <- <-].
  - destruct (truthy (of_str index)); [|destruct dt]; cbn; rewrite Hin;
      by intros [= <- <- <-].
  - rewrite Hin. by intros [= <- <- <-].
  - rewrite Hin. by intros [= <- <- <-].
Qed.

(** X9.  A confirmed [drop] is the forced [drop], and a confirmed [push] the
    forced [push], run on the rest of the input: same result, same world,
    same events after the question. *)
Theorem a_confirmed_command_is_the_forced_one obj index pushed dt
    (w : world S X) v rest :
  read_reply (VBool false) (w_stdin w) = Some (v, rest) → truthy v = true →
  let dropped := Cli.drop obj index true (set_stdin rest w) in
  let sent := Cli.push obj pushed dt true (set_stdin rest w) in
  Cli.drop obj index false w =
    (dropped.1.1, dropped.1.2,
     AskConfirm "Confirm dropping timesheet" (VBool false) :: dropped.2)
  ∧ ∃ text,
      Cli.push obj pushed dt false w =
        (sent.1.1, sent.1.2, AskConfirm text (VBool false) :: sent.2).
Proof.
  intros Hread Hv. cbn zeta. split.
  - to_questions. rewrite Hread, Hv.
    by destruct (Cli.ots_filestore _ _ _) as [[[]]].
  - to_questions.
    destruct (truthy (of_str pushed)); [|destruct dt]; cbn;
      rewrite Hread, Hv; cbn;
      destruct (Cli.ots_filestore _ _ _) as [[[]]]; by eexists.
Qed.

(** X10.  [logout] prints "Session removed." exactly when the [logout] method of
    the store was reached and returned. *)
Theorem logout_reports_a_removed_session obj (w : world S X) r w' tr :
  Cli.logout obj w = (r, w', tr) →
  In (Echo "Session removed.") tr ↔ is_Some (returned "logout" [] [] obj w).
Proof.
  unfold Cli.logout, returned, store_for.
  destruct (obj_db obj) as [db|] eqn:Hdb.
  - rewrite (ots_filestore_run _ db) by done. simpl.
    destruct (w_dbs w !! db) as [s|]; simpl;
      [|intros [= <- <- <-]; split; [in_events | by intros ?%is_Some_None]].
    destruct (check_and_migrate s _) as [s1|e]; simpl;
      [|intros [= <- <- <-]; split; [in_events | by intros ?%is_Some_None]].
    rewrite bind_run. unfold Cli.ts_call.
    destruct (ts_method _ _ _ _ _) as [[[v s2]|e] x]; simpl;
      intros [= <- <- <-]; split.
    + by eexists.
    + simpl. auto.
    + in_events.
    + by intros ?%is_Some_None.
  - rewrite ots_filestore_no_db by done. intros [= <- <- <-]. simpl.
    split; [in_events | by intros ?%is_Some_None].
Qed.
End Questions.

(** ** [setup] and [login] *)

Lemma rev_app_append (s1 s2 acc : string) :
  String.rev_app (s1 +:+ s2) acc = String.rev_app s2 (String.rev_app s1 acc).
Proof. revert acc. induction s1 as [|c s1 IH]; intros acc; simpl; auto. Qed.

Lemma endswith_fs (name : string) : endswith (name +:+ ".fs") ".fs" = true.
Proof.
  unfold endswith, String.rev. rewrite rev_app_append. simpl.
  by destruct (String.rev_app name "").
Qed.

(** The name [setup --advanced] stores ends with ".fs", and a name that
    ends with ".fs" is stored as it is. *)
Lemma with_fs_suffix_ends (name : string) :
  endswith (with_fs_suffix name) ".fs" = true.
Proof.
  unfold with_fs_suffix. destruct (endswith name ".fs") eqn:Hname; [done|].
  apply endswith_fs.
Qed.

Section SetupLogin.
Context {S X : Type} {backend : Backend S X}.

Ltac to_setup :=
  unfold Cli.setup, Cli.login, click_prompt, click_confirm, ask,
    Cli.obj_getitem_config_dir, Cli._save_config, Cli.ensure_path, modify, echo,
    emit, raise, mbind, M_bind, mret, M_ret;
  cbn beta iota zeta.

(** X11.  [setup] offers the present value of [auto_migrate] ([True] without
    one), saves the answer under that key and leaves the other keys of the
    configuration, the file stores and the rest of the input alone. *)
Theorem setup_saves_the_answer obj dir (w : world S X) answer rest r w' tr :
  let cfg := default ∅ (obj_config obj) in
  obj_config_dir obj = Some dir →
  read_reply (dict_get cfg "auto_migrate" (VBool true)) (w_stdin w)
    = Some (answer, rest) →
  Cli.setup obj false w = (r, w', tr) →
  r = Ok tt
  ∧ w_configs w' !! dir = Some (<["auto_migrate" := answer]> cfg)
  ∧ w_dbs w' = w_dbs w
  ∧ w_stdin w' = rest
  ∧ tr = [AskPrompt
            "Automatically migrate filestore to new version when OTS version is upgraded?"
            (dict_get cfg "auto_migrate" (VBool true)) false;
          Echo "Configuration saved"].
Proof.
  intros cfg Hdir Hread. to_setup. fold cfg. rewrite Hread.
  cbn [obj_config_dir]. rewrite Hdir.
  intros [= <- <- <-]. split_and!; try done.
  cbn [w_configs set_configs set_dirs set_stdin]. by rewrite lookup_insert_eq.
Qed.

(** X12.  [setup --advanced] saves the file name it is given with the suffix
    ".fs": added when the name lacks it, not added twice. *)
Theorem setup_advanced_saves_an_fs_name obj dir (w : world S X) answer name
    in1 in2 r w' tr :
  let cfg := default ∅ (obj_config obj) in
  obj_config_dir obj = Some dir →
  read_reply (dict_get cfg "auto_migrate" (VBool true)) (w_stdin w)
    = Some (answer, in1) →
  read_reply (dict_get cfg "filestore" (VStr "filestore.fs")) in1
    = Some (VStr name, in2) →
  Cli.setup obj true w = (r, w', tr) →
  r = Ok tt
  ∧ w_configs w' !! dir =
      Some (<["filestore" := VStr (with_fs_suffix name)]>
              (<["auto_migrate" := answer]> cfg))
  ∧ endswith (with_fs_suffix name) ".fs" = true
  ∧ (endswith name ".fs" = true → with_fs_suffix name = name)
  ∧ w_dbs w' = w_dbs w.
Proof.
  intros cfg Hdir Hread Hname. to_setup. fold cfg. rewrite Hread.
  cbn [w_stdin set_stdin]. unfold Cli.DEFAULT_FILESTORE_FILE_NAME. rewrite Hname.
  cbn [obj_config_dir]. rewrite Hdir.
  intros [= <- <- <-]. split_and!; try done.
  - cbn [w_configs set_configs set_dirs set_stdin]. by rewrite lookup_insert_eq.
  - apply with_fs_suffix_ends.
  - unfold with_fs_suffix. by intros ->.
Qed.

(** Every migration check of a run has the flag of the configuration file
    of the directory. *)
Lemma main_migrate_flag config_dir c (w : world S X) r w' tr flag :
  Cli.main config_dir c w = (r, w', tr) →
  In (Migrate flag) tr →
  flag = dict_get (default ∅ (w_configs w !! config_dir)) "auto_migrate" (VBool true).
Proof.
  unfold Cli.main. rewrite bind_run, cli_run. cbn zeta.
  destruct (dict_get _ "filestore" _) as [| | |name| |];
    try (intros [= <- <- <-]; by intros []).
  destruct (Cli.run_command _ c _) as [[r1 w1] tr1] eqn:Hcmd.
  intros [= <- <- <-].
  apply disciplined_run_command in Hcmd as [Hp _].
  intros [|[|Hin]]; [done | done |].
  by apply (tx_run_migrate _ _ _ _ Hp).
Qed.

Lemma setup_saved obj dir advanced (w : world S X) answer rest w1 tr1 :
  obj_config_dir obj = Some dir →
  read_reply (dict_get (default ∅ (obj_config obj)) "auto_migrate" (VBool true))
    (w_stdin w) = Some (answer, rest) →
  Cli.setup obj advanced w = (Ok tt, w1, tr1) →
  ∃ cfg, w_configs w1 !! dir = Some cfg ∧ cfg !! "auto_migrate" = Some answer.
Proof.
  intros Hdir Hread. to_setup. rewrite Hread. destruct advanced.
  - cbn [w_stdin set_stdin].
    destruct (read_reply _ rest) as [[v in2]|]; [|done].
    destruct v as [| | |name| |]; try done.
    cbn [obj_config_dir]. rewrite Hdir. intros [= <- <-].
    eexists. cbn [w_configs set_configs set_dirs set_stdin].
    rewrite lookup_insert_eq. split; [done|]. cbn.
    rewrite lookup_insert_ne by done. by rewrite lookup_insert_eq.
  - cbn [obj_config_dir]. rewrite Hdir. intros [= <- <-].
    eexists. cbn [w_configs set_configs set_dirs set_stdin].
    rewrite lookup_insert_eq. split; [done|]. cbn. by rewrite lookup_insert_eq.
Qed.

(** X13.  The answer given to [setup] is the [auto_migrate] flag of every
    migration check of a later run on that directory. *)
Theorem the_answer_to_setup_is_the_flag_of_later_runs obj dir advanced
    (w : world S X) answer rest w1 tr1 c r w2 tr2 :
  obj_config_dir obj = Some dir →
  read_reply (dict_get (default ∅ (obj_config obj)) "auto_migrate" (VBool true))
    (w_stdin w) = Some (answer, rest) →
  Cli.setup obj advanced w = (Ok tt, w1, tr1) →
  Cli.main dir c w1 = (r, w2, tr2) →
  ∀ flag, In (Migrate flag) tr2 → flag = answer.
Proof.
  intros Hdir Hread Hsetup Hmain flag Hin.
  destruct (setup_saved _ _ _ _ _ _ _ _ Hdir Hread Hsetup) as (cfg & Hcfg & Hkey).
  rewrite (main_migrate_flag _ _ _ _ _ _ _ Hmain Hin).
  unfold dict_get. rewrite Hcfg. cbn. by rewrite Hkey.
Qed.

End SetupLogin.

(** ** [list] *)


Lemma calls_app (tr1 tr2 : trace) : calls (tr1 ++ tr2) = calls tr1 ++ calls tr2.
Proof. apply List.filter_app. Qed.


Section Listing.
Context {S X : Type} {backend : Backend S X}.


End Listing.

(** ** Transactions and calls, command by command *)

Lemma io_is_no_call (tr : trace) : forallb is_io tr = true → calls tr = [].
Proof.
  induction tr as [|ev tr IH]; [done|]. simpl.
  intros [Hev Htr]%andb_prop. unfold calls in *. simpl.
  destruct ev; try discriminate Hev; auto.
Qed.

Lemma io_is_no_end (tr : trace) ev :
  forallb is_io tr = true → In ev tr → is_io ev = true.
Proof. rewrite forallb_forall. auto. Qed.

Lemma inner_is_no_end (tr : trace) ev :
  forallb is_inner tr = true → In ev tr → is_inner ev = true.
Proof. rewrite forallb_forall. auto. Qed.

Section Settled.
Context {S X : Type} {backend : Backend S X}.

Lemma settled_quiet {A} (m : M (world S X) A) : quiet m → settled m.
Proof.
  intros Hm w r w' tr Hrun. apply Hm in Hrun as (_ & _ & Hio).
  split; intros db Hin; by apply (io_is_no_end _ _ Hio) in Hin.
Qed.

Lemma settled_bind {A B} (m : M (world S X) A) (k : A → M (world S X) B) :
  quiet m → (∀ a, settled (k a)) → settled (m ≫= k).
Proof.
  intros Hm Hk w r w' tr Hrun.
  apply bind_inv in Hrun as [(a & w1 & tr1 & tr2 & H1 & H2 & ->) | (e & H1 & ->)].
  - apply Hm in H1 as (_ & _ & Hio). apply Hk in H2 as [Hc Hr].
    split; intros db [Hin|Hin]%in_app_or; eauto;
      by apply (io_is_no_end _ _ Hio) in Hin.
  - apply Hm in H1 as (_ & _ & Hio).
    split; intros db Hin; by apply (io_is_no_end _ _ Hio) in Hin.
Qed.

Lemma settled_ots_filestore {A} obj (body : M (S * world S X) A) :
  inner body → settled (Cli.ots_filestore obj body).
Proof.
  intros Hbody w r w' tr.
  destruct (obj_db obj) as [db|] eqn:Hdb.
  - rewrite (ots_filestore_run _ db) by done. cbn zeta.
    destruct (w_dbs w !! db) as [s|];
      [|intros [= <- <- <-]; split; intros db' Hin;
        [simpl in Hin; intuition discriminate | by eexists]].
    destruct (check_and_migrate s _) as [s1|e];
      [|intros [= <- <- <-]; split; intros db' Hin;
        [simpl in Hin; intuition discriminate | by eexists]].
    destruct (body (s1, w)) as [[[a|e] [s2 w2]] tr0] eqn:Hrun;
      apply Hbody in Hrun as (_ & _ & Hin0); intros [= <- <- <-];
      split; intros db' Hin; try (by eexists).
    + destruct Hin as [|[|[Hin|Hin]%in_app_or]]; try done.
      * by apply (inner_is_no_end _ _ Hin0) in Hin.
      * destruct Hin as [|[]]; done.
    + destruct Hin as [|[|[Hin|Hin]%in_app_or]]; try done.
      * by apply (inner_is_no_end _ _ Hin0) in Hin.
      * destruct Hin as [|[]]; done.
  - rewrite ots_filestore_no_db by done. intros [= <- <- <-].
    split; by intros db [].
Qed.

Lemma settled_run_command obj c : settled (Cli.run_command (S := S) (X := X) obj c).
Proof.
  destruct c; cbn [Cli.run_command];
    unfold Cli.add, Cli.start, Cli.stop, Cli.edit, Cli.transfer, Cli.drop,
      Cli.lunch, Cli.resume, Cli.alias, Cli.alias_list, Cli.alias_add,
      Cli.alias_delete, Cli.alias_update, Cli.push, Cli.search,
      Cli.list_timesheets, Cli.planning, Cli.login, Cli.logout, Cli.setup,
      Cli.update;
    cbn zeta;
    repeat first
      [ match goal with
        | |- settled (if ?b then _ else _) => destruct b
        | |- settled (match ?x with _ => _ end) => destruct x
        end
      | apply settled_ots_filestore; solve [repeat quiet_step]
      | apply settled_quiet; solve [repeat quiet_step]
      | apply settled_bind; [solve [repeat quiet_step] | intros ?] ].
Qed.

(** X16.  A command and its transaction end together: a command that has
    committed returns, and a command whose transaction was rolled back
    raises.  No command commits and then fails. *)
Theorem a_command_ends_with_its_transaction obj c (w : world S X) r w' tr :
  Cli.run_command obj c w = (r, w', tr) →
  (∀ db, In (Commit db) tr → r = Ok tt)
  ∧ (∀ db, In (Rollback db) tr → ∃ e, r = Raise e).
Proof.
  intros Hrun. apply settled_run_command in Hrun as [Hc Hr].
  split; [|done]. intros db Hin. destruct (Hc db Hin) as [[] ->]. done.
Qed.

Lemma calls_quiet {A} n (m : M (world S X) A) : quiet m → calls_at_most n m.
Proof.
  intros Hm w r w' tr Hrun. apply Hm in Hrun as (_ & _ & Hio).
  rewrite io_is_no_call by done. simpl. lia.
Qed.

Lemma calls_bind {A B} n (m : M (world S X) A) (k : A → M (world S X) B) :
  quiet m → (∀ a, calls_at_most n (k a)) → calls_at_most n (m ≫= k).
Proof.
  intros Hm Hk w r w' tr Hrun.
  apply bind_inv in Hrun as [(a & w1 & tr1 & tr2 & H1 & H2 & ->) | (e & H1 & ->)].
  - apply Hm in H1 as (_ & _ & Hio). apply Hk in H2.
    rewrite calls_app, io_is_no_call by done. done.
  - apply Hm in H1 as (_ & _ & Hio). rewrite io_is_no_call by done. simpl. lia.
Qed.

Lemma calls_ots_filestore {A} n obj (body : M (S * world S X) A) :
  calls_at_most_in n body → calls_at_most n (Cli.ots_filestore obj body).
Proof.
  intros Hbody w r w' tr.
  destruct (obj_db obj) as [db|] eqn:Hdb.
  - rewrite (ots_filestore_run _ db) by done. cbn zeta.
    destruct (w_dbs w !! db) as [s|]; [|intros [= <- <- <-]; simpl; lia].
    destruct (check_and_migrate s _) as [s1|e]; [|intros [= <- <- <-]; simpl; lia].
    destruct (body (s1, w)) as [[[a|e] [s2 w2]] tr0] eqn:Hrun;
      apply Hbody in Hrun; intros [= <- <- <-].
    + change (Begin db :: Migrate ?a :: ?l ++ [Commit db])
        with ([Begin db; Migrate a] ++ l ++ [Commit db]).
      rewrite !calls_app. cbn [calls List.filter is_call app].
      by rewrite app_nil_r.
    + change (Begin db :: Migrate ?a :: ?l ++ [Rollback db])
        with ([Begin db; Migrate a] ++ l ++ [Rollback db]).
      rewrite !calls_app. cbn [calls List.filter is_call app].
      by rewrite app_nil_r.
  - rewrite ots_filestore_no_db by done. intros [= <- <- <-]. simpl. lia.
Qed.

(** One call of a method, and after it no other call. *)
Lemma one_call {A} meth args kw (k : pyval → M (S * world S X) A) :
  (∀ v, calls_at_most_in 0 (k v)) →
  calls_at_most_in 1 (Cli.ts_call meth args kw ≫= k).
Proof.
  intros Hk [s w] r st' tr Hrun.
  apply bind_inv in Hrun as [(a & w1 & tr1 & tr2 & H1 & H2 & ->) | (e & H1 & ->)].
  - apply Hk in H2. unfold Cli.ts_call in H1.
    destruct (ts_method _ _ _ _ _) as [[[v s1]|e] x]; [|done].
    injection H1 as ? ? ?. subst. rewrite calls_app. cbn. cbn in H2. lia.
  - unfold Cli.ts_call in H1.
    destruct (ts_method _ _ _ _ _) as [[[v s1]|e1] x]; [done|].
    injection H1 as ? ? ?. subst. cbn. lia.
Qed.

Lemma no_call_ret {A} n (a : A) : calls_at_most_in n (mret a : M (S * world S X) A).
Proof. intros st r st' tr [= <- <- <-]. simpl. lia. Qed.

Lemma no_call_echo n text :
  calls_at_most_in n (lift_snd (echo text) : M (S * world S X) unit).
Proof. intros st r st' tr [= <- <- <-]. simpl. lia. Qed.

Lemma one_call_run_command obj c :
  prints_days c = false →
  calls_at_most 1 (Cli.run_command (S := S) (X := X) obj c).
Proof.
  intros Hc.
  destruct c; try discriminate Hc; cbn [Cli.run_command];
    unfold Cli.add, Cli.start, Cli.stop, Cli.edit, Cli.transfer, Cli.drop,
      Cli.lunch, Cli.resume, Cli.alias, Cli.alias_list, Cli.alias_add,
      Cli.alias_delete, Cli.alias_update, Cli.push, Cli.search, Cli.planning,
      Cli.login, Cli.logout, Cli.setup, Cli.update;
    cbn zeta;
    repeat first
      [ match goal with
        | |- calls_at_most _ (if ?b then _ else _) => destruct b
        | |- calls_at_most _ (match ?x with _ => _ end) => destruct x
        | |- calls_at_most_in _ (if ?b then _ else _) => destruct b
        end
      | apply calls_ots_filestore
      | apply one_call; intros ?
      | apply no_call_ret | apply no_call_echo
      | apply calls_quiet; solve [repeat quiet_step]
      | apply calls_bind; [solve [repeat quiet_step] | intros ?] ].
Qed.

(** X17.  But for [list], a command calls at most one method of the store;
    [transfer] and [setup] call none. *)
Theorem a_command_calls_the_store_once obj c (w : world S X) r w' tr :
  prints_days c = false →
  Cli.run_command obj c w = (r, w', tr) →
  (length (calls tr) ≤ 1)%nat
  ∧ (match c with
     | CmdTransfer _ _ _ | CmdSetup _ => calls tr = []
     | _ => True
     end).
Proof.
  intros Hc Hrun. split; [by apply (one_call_run_command obj c Hc) in Hrun|].
  destruct c; try done; cbn [Cli.run_command] in Hrun.
  - assert (Hnone : calls_at_most 0
              (Cli.transfer (S := S) (X := X) obj duration index_from index_to)).
    { unfold Cli.transfer. apply calls_ots_filestore, no_call_ret. }
    apply Hnone in Hrun. destruct (calls tr); [done | simpl in Hrun; lia].
  - assert (Hnone : calls_at_most 0 (Cli.setup (S := S) (X := X) obj advanced)).
    { unfold Cli.setup. cbn zeta. apply calls_quiet. repeat quiet_step. }
    apply Hnone in Hrun. destruct (calls tr); [done | simpl in Hrun; lia].
Qed.
End Settled.

(** ** More runs on the machines without Odoo *)

(** [ots lunch] writes no configuration. *)
Lemma lunch_writes_no_configuration :
  let w := holding old_store [] in
  let run := Cli.run_command (backend := offline) home_obj CmdLunch w in
  w_configs run.1.2 = w_configs w ∧ w_dirs run.1.2 = w_dirs w.
Proof.
  cbn zeta.
  destruct (Cli.run_command (backend := offline) home_obj CmdLunch _)
    as [[r w'] tr] eqn:Hrun.
  exact (only_login_and_setup_write_the_configuration (backend := offline)
           home_obj CmdLunch (holding old_store []) r w' tr eq_refl Hrun).
Defined.

(** A forced [drop] reads no input. *)
Lemma forced_drop_reads_no_input :
  let w := holding old_store [Answer (VBool false)] in
  w_stdin (Cli.run_command (backend := offline) home_obj (CmdDrop "0" true) w).1.2
  = w_stdin w.
Proof.
  cbn zeta.
  destruct (Cli.run_command (backend := offline) home_obj (CmdDrop "0" true) _)
    as [[r w'] tr] eqn:Hrun.
  exact (commands_without_a_question_read_no_input (backend := offline)
           home_obj (CmdDrop "0" true)
           (holding old_store [Answer (VBool false)]) r w' tr eq_refl Hrun).
Defined.

(** [ots lunch] in [home] leaves the store of the team alone. *)
Lemma lunch_leaves_the_other_store :
  w_dbs (Cli.run_command (backend := offline) home_obj CmdLunch two_stores).1.2
    !! "/srv/ots/team.fs"
  = Some (Store.empty 0).
Proof.
  destruct (Cli.run_command (backend := offline) home_obj CmdLunch two_stores)
    as [[r w'] tr] eqn:Hrun.
  cbn [fst snd].
  rewrite (a_command_writes_its_own_store_only (backend := offline)
             home_obj CmdLunch two_stores r w' tr "/srv/ots/team.fs" Hrun);
    [reflexivity | discriminate].
Defined.

(** [ots stop] on a context object without a database. *)
Lemma stop_without_a_database :
  let run :=
    Cli.run_command (backend := offline) (Obj (Some home) None (Some ∅)) CmdStop
      (holding old_store []) in
  run.1.1 = Raise (ClickException "Something went wrong, unable to find database.")
  ∧ run.2 = [].
Proof.
  cbn zeta.
  destruct (Cli.run_command (backend := offline) _ CmdStop _)
    as [[r w'] tr] eqn:Hrun.
  exact (proj2 (proj2
           (without_a_database_no_store_is_opened (backend := offline)
              (Obj (Some home) None (Some ∅)) CmdStop (holding old_store [])
              r w' tr eq_refl Hrun))
           eq_refl).
Defined.


(** The group callback, twice on a new machine. *)
Lemma cli_twice_on_a_new_machine :
  let once := Cli.cli (backend := offline) home (fresh []) in
  Cli.cli (backend := offline) home once.1.2 = (Ok home_obj, once.1.2, once.2).
Proof.
  cbn zeta.
  apply (cli_is_idempotent (backend := offline) home (fresh [])).
  vm_compute. reflexivity.
Defined.


(** [ots setup] with nothing to read. *)
Lemma setup_without_input :
  (Cli.run_command (backend := offline) home_obj (CmdSetup false)
     (holding old_store [])).1.1 = Raise Abort.
Proof.
  destruct (Cli.run_command (backend := offline) home_obj (CmdSetup false) _)
    as [[r w'] tr] eqn:Hrun.
  exact (proj1 (no_input_aborts (backend := offline) home_obj (CmdSetup false)
                  (holding old_store []) r w' tr eq_refl eq_refl Hrun)).
Defined.

(** [ots drop 0], confirmed, is [ots drop 0 -f]. *)
Lemma confirmed_drop_offline :
  let w := holding old_store [Answer (VBool true)] in
  let forced := Cli.drop (backend := offline) home_obj "0" true (set_stdin [] w) in
  Cli.drop (backend := offline) home_obj "0" false w =
    (forced.1.1, forced.1.2,
     AskConfirm "Confirm dropping timesheet" (VBool false) :: forced.2).
Proof.
  exact (proj1 (a_confirmed_command_is_the_forced_one (backend := offline)
                  home_obj "0" None None
                  (holding old_store [Answer (VBool true)]) (VBool true) []
                  eq_refl eq_refl)).
Defined.

(** [ots logout] where the session can be removed. *)
Lemma logout_locally :
  In (Echo "Session removed.")
     (Cli.logout (backend := local_only) home_obj (holding old_store [])).2.
Proof.
  destruct (Cli.logout (backend := local_only) home_obj _) as [[r w'] tr] eqn:Hrun.
  apply (logout_reports_a_removed_session (backend := local_only) home_obj
           (holding old_store []) r w' tr Hrun).
  exists VNone. vm_compute. reflexivity.
Defined.

(** [ots setup], answered with no. *)
Lemma setup_answered_no :
  let w := holding old_store [Answer (VBool false)] in
  w_configs (Cli.setup home_obj false w).1.2 !! home
  = Some (<["auto_migrate" := VBool false]> ∅).
Proof.
  cbn zeta.
  destruct (Cli.setup home_obj false _) as [[r w'] tr] eqn:Hrun.
  exact (proj1 (proj2
           (setup_saves_the_answer home_obj home
              (holding old_store [Answer (VBool false)]) (VBool false) [] r w' tr
              eq_refl eq_refl Hrun))).
Defined.

(** [ots setup -a], with the file name "work". *)
Lemma setup_advanced_names_work :
  let w := holding old_store [Enter; Answer (VStr "work")] in
  w_configs (Cli.setup home_obj true w).1.2 !! home
  = Some (<["filestore" := VStr "work.fs"]> (<["auto_migrate" := VBool true]> ∅)).
Proof.
  cbn zeta.
  destruct (Cli.setup home_obj true _) as [[r w'] tr] eqn:Hrun.
  exact (proj1 (proj2
           (setup_advanced_saves_an_fs_name home_obj home
              (holding old_store [Enter; Answer (VStr "work")]) (VBool true) "work"
              [Answer (VStr "work")] [] r w' tr eq_refl eq_refl eq_refl Hrun))).
Defined.

(** After [ots setup] answered with no, [ots stop] checks the migration
    with [auto_migrate=False] and with no other flag. *)
Lemma stop_after_setup_answered_no :
  let w := holding old_store [Answer (VBool false)] in
  let w1 := (Cli.setup home_obj false w).1.2 in
  forallb (λ ev, match ev with
                 | Migrate flag => bool_decide (flag = VBool false)
                 | _ => true
                 end)
    (Cli.main (backend := offline) home CmdStop w1).2 = true.
Proof.
  cbn zeta.
  assert (Hsetup :
    Cli.setup home_obj false
      (holding old_store [Answer (VBool false)]) =
    (Ok tt,
     (Cli.setup home_obj false
        (holding old_store [Answer (VBool false)])).1.2,
     (Cli.setup home_obj false
        (holding old_store [Answer (VBool false)])).2))
    by (vm_compute; reflexivity).
  destruct (Cli.main (backend := offline) home CmdStop _) as [[r w2] tr2] eqn:Hmain.
  apply forallb_forall. intros ev Hin. destruct ev; try reflexivity.
  apply bool_decide_eq_true_2.
  exact (the_answer_to_setup_is_the_flag_of_later_runs (backend := offline)
           home_obj home false (holding old_store [Answer (VBool false)])
           (VBool false) [] _ _ CmdStop r w2 tr2 eq_refl eq_refl Hsetup Hmain
           _ Hin).
Defined.



(** A failed edit has rolled back. *)
Lemma failed_edit_has_rolled_back :
  let run :=
    Cli.run_command (backend := offline) home_obj
      (CmdEdit "7" None (Some "+00:30") None None None) (holding old_store []) in
  In (Rollback home_db) run.2 ∧ ∃ e, run.1.1 = Raise e.
Proof.
  cbn zeta.
  destruct (Cli.run_command (backend := offline) home_obj _ _)
    as [[r w'] tr] eqn:Hrun.
  assert (Hin : In (Rollback home_db) tr).
  { apply (f_equal snd) in Hrun. cbn [snd] in Hrun. rewrite <- Hrun.
    vm_compute. auto 10. }
  split; [exact Hin|].
  exact (proj2 (a_command_ends_with_its_transaction (backend := offline)
                  home_obj (CmdEdit "7" None (Some "+00:30") None None None)
                  (holding old_store []) r w' tr Hrun) home_db Hin).
Defined.

(** [ots lunch] calls one method. *)
Lemma lunch_calls_once :
  (length (calls (Cli.run_command (backend := offline) home_obj CmdLunch
                    (holding old_store [])).2) ≤ 1)%nat.
Proof.
  destruct (Cli.run_command (backend := offline) home_obj CmdLunch _)
    as [[r w'] tr] eqn:Hrun.
  exact (proj1 (a_command_calls_the_store_once (backend := offline)
                  home_obj CmdLunch (holding old_store []) r w' tr eq_refl Hrun)).
Defined.
